(** * Dynamic-Pricing-Model: the recommendation engine of [analyze_csv_data.py]

    A shallow embedding of [pricing_recommendations] and [inventory_alerts]
    with the table operations they rest on (date filter, group-by mean,
    left merge, descending sort), then of the other reports
    ([product_pricing_overview], [competitor_comparison],
    [high_demand_products], [revenue_analysis]) and of the run of [main]
    over the loaded tables, followed by the properties of the rule chain
    and of the reports.

    Numbers.  The script computes on Python and NumPy floats.  A float is
    modelled by [fl]: an exact rational, or NaN, which is also how pandas
    marks a missing cell.  A cell of the tables holds a finite number or
    nothing; an infinity only arises where NumPy divides by zero
    ([quotient]).  Arithmetic on the rational part is exact: the rounding
    error of the binary64 operations is not modelled, and the decimal
    constants of the script (1.05, 0.92, ...) stand for themselves.
    Comparisons, [min] and [max], division by zero, [round] and the
    treatment of NaN follow Python, respectively NumPy. *)

From Stdlib Require Import ZArith QArith Qround Lqa Lia Bool List String.
From Stdlib Require Import Sorting.Sorted Sorting.Permutation.
Import ListNotations.
Local Open Scope Q_scope.

(** ** Floats *)

(** A numeric cell or an intermediate result: a number, or NaN. *)
Inductive fl : Type :=
| Num (q : Q)
| NaN.

Definition Qlt_bool (x y : Q) : bool := negb (Qle_bool y x).
Definition Qeq_zero (x : Q) : bool := Qeq_bool x 0.

(** [pd.isna] / [pd.notna] on a scalar. *)
Definition isna (x : fl) : bool :=
  match x with NaN => true | Num _ => false end.
Definition notna (x : fl) : bool := negb (isna x).

(** [a < b] and [a > b]: false as soon as one side is NaN. *)
Definition flt (a b : fl) : bool :=
  match a, b with
  | Num x, Num y => Qlt_bool x y
  | _, _ => false
  end.
Definition fgt (a b : fl) : bool := flt b a.

(** [a <= b] and [a >= b] *)
Definition fle (a b : fl) : bool :=
  match a, b with
  | Num x, Num y => Qle_bool x y
  | _, _ => false
  end.
Definition fge (a b : fl) : bool := fle b a.

Definition fsub (a b : fl) : fl :=
  match a, b with
  | Num x, Num y => Num (x - y)
  | _, _ => NaN
  end.

Definition fmul (a b : fl) : fl :=
  match a, b with
  | Num x, Num y => Num (x * y)
  | _, _ => NaN
  end.

(** Quotient by a divisor that is not zero. *)
Definition fdiv_nz (a b : fl) : fl :=
  match a, b with
  | Num x, Num y => Num (x / y)
  | _, _ => NaN
  end.

Definition is_zero (a : fl) : bool :=
  match a with Num x => Qeq_zero x | NaN => false end.

(** ** Errors *)

Inductive error : Type :=
| ZeroDivisionError.

Inductive result (A : Type) : Type :=
| Ok (a : A)
| Err (e : error).
Arguments Ok {A} a.
Arguments Err {A} e.

Definition bind {A B : Type} (m : result A) (f : A -> result B) : result B :=
  match m with
  | Ok a => f a
  | Err e => Err e
  end.

Notation "x <- m ;; k" := (bind m (fun x => k))
  (at level 61, m at next level, right associativity).

(** Python's [a / b] on floats: a zero divisor raises, whatever [a] is. *)
Definition py_div (a b : fl) : result fl :=
  if is_zero b then Err ZeroDivisionError else Ok (fdiv_nz a b).

(** What NumPy's division of two float columns leaves in a cell: a float,
    or an infinity where a number other than zero was divided by zero. *)
Inductive quotient : Type :=
| Fin (a : fl)
| PInf
| NInf.

(** NumPy's [a / b]: a zero divisor gives an infinity with the sign of [a],
    and NaN for 0/0 and NaN/0; nothing is raised. *)
Definition np_div (a b : fl) : quotient :=
  if is_zero b then
    match a with
    | Num x => if Qeq_zero x then Fin NaN
               else if Qlt_bool 0 x then PInf else NInf
    | NaN => Fin NaN
    end
  else Fin (fdiv_nz a b).

(** Python's two-argument [min(a, b)] and [max(a, b)]: the first argument is
    kept unless the second is strictly smaller, respectively greater. *)
Definition py_min (a b : fl) : fl := if flt b a then b else a.
Definition py_max (a b : fl) : fl := if fgt b a then b else a.

(** ** Rounding *)

(** Nearest integer, ties to the even one. *)
Definition round_half_even (x : Q) : Z :=
  let f := Qfloor x in
  match Qcompare (x - inject_Z f) (1 # 2) with
  | Lt => f
  | Gt => (f + 1)%Z
  | Eq => if Z.even f then f else (f + 1)%Z
  end.

(** Rounding to [10^-k] for the scale [s = 10^k]. *)
Definition Qround_to (s : positive) (x : Q) : Q :=
  Qred (round_half_even (x * inject_Z (Zpos s)) # s).

Definition fround_to (s : positive) (a : fl) : fl :=
  match a with
  | Num x => Num (Qround_to s x)
  | NaN => NaN
  end.

(** [round(x, 2)] and [.round(1)] *)
Definition round2 : fl -> fl := fround_to 100.
Definition round1 : fl -> fl := fround_to 10.

(** [x] is a multiple of [1/s]. *)
Definition on_grid (s : positive) (x : Q) : Prop :=
  inject_Z (Qfloor (x * inject_Z (Zpos s))) == x * inject_Z (Zpos s).

(** A number with at most two decimals. *)
Definition decimals2 (a : fl) : Prop :=
  match a with
  | Num x => on_grid 100 x
  | NaN => False
  end.

(** ** Tables

    One record per CSV row, with the columns the two functions read.  A
    numeric cell is an [fl] (NaN when the cell is empty), a text cell an
    [option string].  Dates are day numbers. *)

Module Products.
Record row : Type := {
  product_id : Z;
  product_name : string;
  current_price : fl;
  min_price : fl;
  max_price : fl
}.
End Products.

Module Inventory.
Record row : Type := {
  product_id : Z;
  quantity_available : fl;
  reorder_point : fl;
  stock_status : option string
}.
End Inventory.

Module Demand.
Record row : Type := {
  product_id : Z;
  date : Z;
  demand_score : fl;
  conversion_rate : fl;
  purchase_count : fl
}.
End Demand.

Module CompetitorPrices.
Record row : Type := {
  product_id : Z;
  competitor_price : fl
}.
End CompetitorPrices.

(** The [data] dictionary of [load_data], with the four tables present. *)
Record data : Type := {
  products : list Products.row;
  inventory : list Inventory.row;
  demand_metrics : list Demand.row;
  competitor_prices : list CompetitorPrices.row
}.

(** *** Column maximum, group-by mean, left merge *)

(** [demand['date'].max()]: nothing for an empty column. *)
Definition max_date (l : list Demand.row) : option Z :=
  fold_left
    (fun m r => match m with
                | None => Some (Demand.date r)
                | Some d => Some (Z.max d (Demand.date r))
                end)
    l None.

(** The distinct keys in ascending order, as [groupby] lists its groups. *)
Fixpoint insert_key (k : Z) (ks : list Z) : list Z :=
  match ks with
  | [] => [k]
  | h :: t =>
      if (k <? h)%Z then k :: ks
      else if (k =? h)%Z then ks
      else h :: insert_key k t
  end.

Definition group_keys (ks : list Z) : list Z := fold_right insert_key [] ks.

(** The numbers of a column, NaN cells dropped. *)
Fixpoint numbers (xs : list fl) : list Q :=
  match xs with
  | [] => []
  | Num x :: t => x :: numbers t
  | NaN :: t => numbers t
  end.

(** [mean] of a group: NaN cells are skipped, a group without numbers gives
    NaN. *)
Definition mean (xs : list fl) : fl :=
  match numbers xs with
  | [] => NaN
  | ys => Num (Qred (fold_left Qplus ys 0
                     / inject_Z (Z.of_nat (List.length ys))))
  end.

(** [rows.groupby(key)[val].mean().reset_index()] *)
Definition groupby_mean {A : Type} (key : A -> Z) (val : A -> fl)
    (rows : list A) : list (Z * fl) :=
  map (fun k => (k, mean (map val (filter (fun r => (key r =? k)%Z) rows))))
      (group_keys (map key rows)).

(** [l.merge(r, on='product_id', how='left')]: every left row, in order,
    paired with each right row of the same key, or with nothing. *)
Definition merge_left {L R : Type} (lkey : L -> Z) (rkey : R -> Z)
    (l : list L) (r : list R) : list (L * option R) :=
  flat_map
    (fun x => match filter (fun y => (rkey y =? lkey x)%Z) r with
              | [] => [(x, None)]
              | ms => map (fun y => (x, Some y)) ms
              end)
    l.

(** A column of the right table in a merged row. *)
Definition col {R : Type} (f : R -> fl) (o : option R) : fl :=
  match o with Some y => f y | None => NaN end.

(** [.fillna(v)] on a numeric cell. *)
Definition fillna (v : fl) (x : fl) : fl := if isna x then v else x.

(** ** Pricing recommendations *)

(** A row of the merged frame [reco]. *)
Module Reco.
Record row : Type := {
  product_id : Z;
  product_name : string;
  current_price : fl;
  min_price : fl;
  max_price : fl;
  quantity_available : fl;
  stock_status : option string;
  demand_score : fl;
  conversion_rate : fl;
  avg_competitor_price : fl
}.
End Reco.

(** [demand[demand['date'] == demand['date'].max()]] *)
Definition latest_demand (d : data) : list Demand.row :=
  match max_date (demand_metrics d) with
  | None => []
  | Some m => filter (fun r => (Demand.date r =? m)%Z) (demand_metrics d)
  end.

Definition avg_comp (d : data) : list (Z * fl) :=
  groupby_mean CompetitorPrices.product_id CompetitorPrices.competitor_price
               (competitor_prices d).

Definition mk_reco
    (x : Products.row * option Inventory.row * option Demand.row
         * option (Z * fl)) : Reco.row :=
  let '(p, i, dm, c) := x in
  {| Reco.product_id := Products.product_id p;
     Reco.product_name := Products.product_name p;
     Reco.current_price := Products.current_price p;
     Reco.min_price := Products.min_price p;
     Reco.max_price := Products.max_price p;
     Reco.quantity_available := col Inventory.quantity_available i;
     Reco.stock_status :=
       match i with Some y => Inventory.stock_status y | None => None end;
     Reco.demand_score := col Demand.demand_score dm;
     Reco.conversion_rate := col Demand.conversion_rate dm;
     Reco.avg_competitor_price := col snd c |}.

(** The three left merges that build [reco]. *)
Definition reco (d : data) : list Reco.row :=
  let m1 := merge_left Products.product_id Inventory.product_id
                       (products d) (inventory d) in
  let m2 := merge_left (fun x => Products.product_id (fst x))
                       Demand.product_id m1 (latest_demand d) in
  let m3 := merge_left (fun x => Products.product_id (fst (fst x)))
                       fst m2 (avg_comp d) in
  map mk_reco m3.

Inductive action : Type :=
| INCREASE
| DECREASE.

(** The four reason texts, with the number the f-string formats into them. *)
Inductive reason : Type :=
| HighDemand (demand_score : fl)
| LowDemand (demand_score : fl)
| AboveCompetitors (avg_competitor_price : fl)
| LowStock.

Module Recommendation.
Record t : Type := {
  product_name : string;
  current_price : fl;
  recommended_price : fl;
  action : action;
  change_pct : fl;
  reason : option reason
}.
End Recommendation.

(** The local variables of the loop body after the [if]/[elif] chain. *)
Record locals : Type := {
  l_action : option action;
  l_reason : option reason;
  l_recommended_price : fl
}.

(** [row['stock_status'] == 'low_stock'] *)
Definition is_low_stock (s : option string) : bool :=
  match s with
  | Some t => String.eqb t "low_stock"
  | None => false
  end.

Definition rule1 (row : Reco.row) : bool :=
  fgt (Reco.demand_score row) (Num 7.5)
  && fgt (Reco.quantity_available row) (Num 50).

Definition rule2 (row : Reco.row) : bool :=
  flt (Reco.demand_score row) (Num 5)
  && fgt (Reco.quantity_available row) (Num 100).

Definition rule3 (row : Reco.row) : bool :=
  notna (Reco.avg_competitor_price row)
  && fgt (Reco.current_price row)
         (fmul (Reco.avg_competitor_price row) (Num 1.05)).

Definition rule4 (row : Reco.row) : bool :=
  is_low_stock (Reco.stock_status row)
  && fgt (Reco.demand_score row) (Num 6).

(** The price formula of each branch. *)
Definition price1 (row : Reco.row) : fl :=
  py_min (fmul (Reco.current_price row) (Num 1.05)) (Reco.max_price row).
Definition price2 (row : Reco.row) : fl :=
  py_max (fmul (Reco.current_price row) (Num 0.92)) (Reco.min_price row).
Definition price3 (row : Reco.row) : fl :=
  py_max (fmul (Reco.avg_competitor_price row) (Num 0.98))
         (Reco.min_price row).
Definition price4 (row : Reco.row) : fl :=
  py_min (fmul (Reco.current_price row) (Num 1.08)) (Reco.max_price row).

Definition apply_rules (row : Reco.row) : locals :=
  if rule1 row then
    {| l_action := Some INCREASE;
       l_reason := Some (HighDemand (Reco.demand_score row));
       l_recommended_price := price1 row |}
  else if rule2 row then
    {| l_action := Some DECREASE;
       l_reason := Some (LowDemand (Reco.demand_score row));
       l_recommended_price := price2 row |}
  else if rule3 row then
    {| l_action := Some DECREASE;
       l_reason := Some (AboveCompetitors (Reco.avg_competitor_price row));
       l_recommended_price := price3 row |}
  else if rule4 row then
    {| l_action := Some INCREASE;
       l_reason := Some LowStock;
       l_recommended_price := price4 row |}
  else
    {| l_action := None;
       l_reason := None;
       l_recommended_price := Reco.current_price row |}.

(** The dictionary appended for a row whose action is [a]; the percentage
    divides by [current_price]. *)
Definition build (row : Reco.row) (a : action) (rs : option reason)
    (recommended_price : fl) : result Recommendation.t :=
  q <- py_div (fsub recommended_price (Reco.current_price row))
              (Reco.current_price row) ;;
  Ok {| Recommendation.product_name := Reco.product_name row;
        Recommendation.current_price := Reco.current_price row;
        Recommendation.recommended_price := round2 recommended_price;
        Recommendation.action := a;
        Recommendation.change_pct := round2 (fmul q (Num 100));
        Recommendation.reason := rs |}.

(** One pass of the loop body: the recommendation appended, if any. *)
Definition emit (row : Reco.row) : result (option Recommendation.t) :=
  let l := apply_rules row in
  match l_action l with
  | Some a =>
      r <- build row a (l_reason l) (l_recommended_price l) ;;
      Ok (Some r)
  | None => Ok None
  end.

(** [for _, row in reco.iterrows(): ...] with the list it appends to. *)
Fixpoint iterrows (rows : list Reco.row)
    (recommendations : list Recommendation.t)
    : result (list Recommendation.t) :=
  match rows with
  | [] => Ok recommendations
  | row :: rest =>
      o <- emit row ;;
      iterrows rest
        (match o with
         | Some r => recommendations ++ [r]
         | None => recommendations
         end)
  end.

(** [sort_values(key, ascending=False)]: the rows with a number as key in
    descending order, then the rows whose key is NaN.  Rows with equal keys
    keep their order here; pandas' default sort leaves it open. *)
Section Sort.
Context {A : Type} (key : A -> fl).

Fixpoint insert_desc (x : A) (l : list A) : list A :=
  match l with
  | [] => [x]
  | y :: t =>
      if fge (key x) (key y) then x :: l else y :: insert_desc x t
  end.

Definition sort_desc (l : list A) : list A := fold_right insert_desc [] l.

Definition sort_values_desc (l : list A) : list A :=
  sort_desc (filter (fun x => notna (key x)) l)
  ++ filter (fun x => isna (key x)) l.
End Sort.

(** The table printed by [pricing_recommendations]; the empty list stands
    for the message that no change is recommended. *)
Definition pricing_recommendations (d : data)
    : result (list Recommendation.t) :=
  recommendations <- iterrows (reco d) [] ;;
  match recommendations with
  | [] => Ok []
  | _ => Ok (sort_values_desc Recommendation.change_pct recommendations)
  end.

(** ** Inventory alerts *)

(** A row of [inv_analysis] once [days_of_stock] is computed. *)
Module Alert.
Record row : Type := {
  product_id : Z;
  product_name : string;
  current_price : fl;
  quantity_available : fl;
  reorder_point : fl;
  avg_daily_sales : fl;
  days_of_stock : fl
}.
End Alert.

(** [demand[demand['date'] >= demand['date'].max() - timedelta(days=7)]] *)
Definition recent_demand (d : data) : list Demand.row :=
  match max_date (demand_metrics d) with
  | None => []
  | Some m => filter (fun r => (m - 7 <=? Demand.date r)%Z) (demand_metrics d)
  end.

Definition velocity (d : data) : list (Z * fl) :=
  groupby_mean Demand.product_id Demand.purchase_count (recent_demand d).

(** [.replace([inf, -inf], v)] *)
Definition replace_inf (v : fl) (x : quotient) : fl :=
  match x with
  | PInf | NInf => v
  | Fin a => a
  end.

(** The [days_of_stock] cell from the two cells it divides. *)
Definition days_of_stock (quantity_available avg_daily_sales : fl) : fl :=
  round1
    (fillna (Num 999)
       (replace_inf (Num 999)
          (np_div quantity_available avg_daily_sales))).

Definition mk_alert
    (x : Products.row * option Inventory.row * option (Z * fl)) : Alert.row :=
  let '(p, i, v) := x in
  let qty := fillna (Num 0) (col Inventory.quantity_available i) in
  let avg := fillna (Num 0) (col snd v) in
  {| Alert.product_id := Products.product_id p;
     Alert.product_name := Products.product_name p;
     Alert.current_price := fillna (Num 0) (Products.current_price p);
     Alert.quantity_available := qty;
     Alert.reorder_point := fillna (Num 0) (col Inventory.reorder_point i);
     Alert.avg_daily_sales := avg;
     Alert.days_of_stock := days_of_stock qty avg |}.

Definition inv_analysis (d : data) : list Alert.row :=
  let m1 := merge_left Products.product_id Inventory.product_id
                       (products d) (inventory d) in
  let m2 := merge_left (fun x => Products.product_id (fst x))
                       fst m1 (velocity d) in
  map mk_alert m2.

(** The two tables printed: low stock, then slow moving. *)
Definition inventory_alerts (d : data) : list Alert.row * list Alert.row :=
  let t := inv_analysis d in
  (filter (fun r => fle (Alert.quantity_available r) (Alert.reorder_point r)) t,
   filter (fun r => fgt (Alert.days_of_stock r) (Num 30)) t).


(** ** The branch taken

    The [if]/[elif] chain read as a choice among the four rules. *)

Inductive rule : Type :=
| R1
| R2
| R3
| R4.

Definition fired (row : Reco.row) : option rule :=
  if rule1 row then Some R1
  else if rule2 row then Some R2
  else if rule3 row then Some R3
  else if rule4 row then Some R4
  else None.

Definition rule_action (k : rule) : action :=
  match k with
  | R1 | R4 => INCREASE
  | R2 | R3 => DECREASE
  end.

Definition rule_reason (k : rule) (row : Reco.row) : reason :=
  match k with
  | R1 => HighDemand (Reco.demand_score row)
  | R2 => LowDemand (Reco.demand_score row)
  | R3 => AboveCompetitors (Reco.avg_competitor_price row)
  | R4 => LowStock
  end.

Definition rule_price (k : rule) (row : Reco.row) : fl :=
  match k with
  | R1 => price1 row
  | R2 => price2 row
  | R3 => price3 row
  | R4 => price4 row
  end.

(** The recommendation rule [k] builds for [row]. *)
Definition rule_build (k : rule) (row : Reco.row) : result Recommendation.t :=
  build row (rule_action k) (Some (rule_reason k row)) (rule_price k row).

(** The Product invariant [min_price <= current_price <= max_price]. *)
Definition product_invariant (row : Reco.row) : Prop :=
  fle (Reco.min_price row) (Reco.current_price row) = true
  /\ fle (Reco.current_price row) (Reco.max_price row) = true.

(** ** Sample rows *)

Definition sample (name : string) (cur mn mx qty : fl) (st : option string)
    (ds avg : fl) : Reco.row :=
  {| Reco.product_id := 1;
     Reco.product_name := name;
     Reco.current_price := cur;
     Reco.min_price := mn;
     Reco.max_price := mx;
     Reco.quantity_available := qty;
     Reco.stock_status := st;
     Reco.demand_score := ds;
     Reco.conversion_rate := NaN;
     Reco.avg_competitor_price := avg |}.

(** current_price=100, max_price=120, demand_score=8.0, quantity=60 *)
Definition row_high_demand : Reco.row :=
  sample "widget" (Num 100) (Num 80) (Num 120) (Num 60)
         (Some "in_stock"%string) (Num 8) NaN.

(** current_price=50, min_price=40, demand_score=4.0, quantity=150 *)
Definition row_low_demand : Reco.row :=
  sample "gadget" (Num 50) (Num 40) (Num 60) (Num 150)
         (Some "in_stock"%string) (Num 4) NaN.

(** A max_price with three decimals, reached by rule 1. *)
Definition row_fine_bound : Reco.row :=
  sample "gizmo" (Num 119) (Num 100) (Num 120.006) (Num 60)
         (Some "in_stock"%string) (Num 8) NaN.

(** A negative current_price, equal to min_price. *)
Definition row_negative : Reco.row :=
  sample "credit" (Num (-100)) (Num (-100)) (Num 0) (Num 60)
         (Some "in_stock"%string) (Num 8) NaN.

(** What a left merge says of the right half [o] of a merged row with left
    half [x]: a right row of the same key, or none when no key matches. *)
Definition matched {L R : Type} (lkey : L -> Z) (rkey : R -> Z)
    (r : list R) (x : L) (o : option R) : Prop :=
  match o with
  | Some y => In y r /\ rkey y = lkey x
  | None => forall y, In y r -> rkey y <> lkey x
  end.

(** ** Sample tables *)

Definition product (id : Z) (name : string) (cur mn mx : fl) : Products.row :=
  {| Products.product_id := id;
     Products.product_name := name;
     Products.current_price := cur;
     Products.min_price := mn;
     Products.max_price := mx |}.

Definition stock (id : Z) (qty reorder : fl) (st : string) : Inventory.row :=
  {| Inventory.product_id := id;
     Inventory.quantity_available := qty;
     Inventory.reorder_point := reorder;
     Inventory.stock_status := Some st |}.

Definition snapshot (id day : Z) (score sold : fl) : Demand.row :=
  {| Demand.product_id := id;
     Demand.date := day;
     Demand.demand_score := score;
     Demand.conversion_rate := Num 0.1;
     Demand.purchase_count := sold |}.

Definition quote (id : Z) (price : fl) : CompetitorPrices.row :=
  {| CompetitorPrices.product_id := id;
     CompetitorPrices.competitor_price := price |}.

(** Product 2 has its only snapshot one day before the latest date, and
    competitors that sell it at 85 on average. *)
Definition shop_stale_demand : data :=
  {| products := [product 1 "widget" (Num 100) (Num 80) (Num 120);
                  product 2 "gadget" (Num 100) (Num 50) (Num 120)];
     inventory := [stock 1 (Num 60) (Num 20) "in_stock";
                   stock 2 (Num 10) (Num 20) "low_stock"];
     demand_metrics := [snapshot 1 10 (Num 8) (Num 5);
                        snapshot 2 9 (Num 7) (Num 0)];
     competitor_prices := [quote 2 (Num 80); quote 2 (Num 90)] |}.

(** A row that meets the conditions of rule 1 and of rule 3 at once. *)
Definition row_both : Reco.row :=
  sample "sprocket" (Num 100) (Num 80) (Num 120) (Num 60)
         (Some "in_stock"%string) (Num 8) (Num 90).

(** Three products whose rows give change_pct 5.0, -3.0 and 8.0, in this
    order. *)
Definition shop_sorting : data :=
  {| products := [product 1 "widget" (Num 100) (Num 80) (Num 120);
                  product 2 "gadget" (Num 100) (Num 97) (Num 120);
                  product 3 "gizmo" (Num 100) (Num 80) (Num 120)];
     inventory := [stock 1 (Num 60) (Num 20) "in_stock";
                   stock 2 (Num 150) (Num 20) "in_stock";
                   stock 3 (Num 10) (Num 20) "low_stock"];
     demand_metrics := [snapshot 1 10 (Num 8) (Num 5);
                        snapshot 2 10 (Num 4) (Num 1);
                        snapshot 3 10 (Num 7) (Num 3)];
     competitor_prices := [] |}.

(** The first product has an empty current_price cell. *)
Definition shop_missing_price : data :=
  {| products := [product 1 "widget" NaN (Num 80) (Num 120);
                  product 2 "gadget" (Num 100) (Num 80) (Num 120)];
     inventory := [stock 1 (Num 60) (Num 20) "in_stock";
                   stock 2 (Num 60) (Num 20) "in_stock"];
     demand_metrics := [snapshot 1 10 (Num 8) (Num 5);
                        snapshot 2 10 (Num 8) (Num 5)];
     competitor_prices := [] |}.

(** ** Orders on the output *)

(** Each record's change_pct is at least the next one's. *)
Definition descending (l : list Recommendation.t) : Prop :=
  Sorted (fun a b => fge (Recommendation.change_pct a)
                         (Recommendation.change_pct b) = true) l.

(** The same, except that a record whose change_pct is NaN may follow any
    record. *)
Definition descending_nan_last (l : list Recommendation.t) : Prop :=
  Sorted (fun a b => isna (Recommendation.change_pct b) = true
                     \/ fge (Recommendation.change_pct a)
                            (Recommendation.change_pct b) = true) l.

(** A product in high demand, priced above its competitors, with no
    inventory row. *)
Definition shop_no_inventory : data :=
  {| products := [product 1 "widget" (Num 100) (Num 50) (Num 120)];
     inventory := [];
     demand_metrics := [snapshot 1 10 (Num 8) (Num 5)];
     competitor_prices := [quote 1 (Num 85)] |}.

(** The percentage recomputed from the two price fields of a record. *)
Definition recomputed_pct (r : Recommendation.t) : result fl :=
  q <- py_div (fsub (Recommendation.recommended_price r)
                    (Recommendation.current_price r))
              (Recommendation.current_price r) ;;
  Ok (round2 (fmul q (Num 100))).

(** current_price=33.33 in high demand: rule 1 gives 34.9965. *)
Definition row_rounding : Reco.row :=
  sample "trinket" (Num 33.33) (Num 30) (Num 50) (Num 60)
         (Some "in_stock"%string) (Num 8) NaN.

(** ** Further readings of the loop *)

(** Some branch of the chain is taken for [row]. *)
Definition fires (row : Reco.row) : bool :=
  match fired row with
  | Some _ => true
  | None => false
  end.

(** The three price cells of a row are filled. *)
Definition prices_filled (row : Reco.row) : Prop :=
  notna (Reco.current_price row) = true
  /\ notna (Reco.min_price row) = true
  /\ notna (Reco.max_price row) = true.

(** A low-stock product in demand, priced above its competitors. *)
Definition row_low_stock_dear : Reco.row :=
  sample "gizmo" (Num 100) (Num 50) (Num 120) (Num 10)
         (Some "low_stock"%string) (Num 7) (Num 85).

(** A low-stock product in demand, without competitor prices. *)
Definition row_low_stock : Reco.row :=
  sample "gizmo" (Num 100) (Num 50) (Num 120) (Num 10)
         (Some "low_stock"%string) (Num 7) NaN.

(** The three price cells of a product are filled. *)
Definition product_filled (p : Products.row) : Prop :=
  notna (Products.current_price p) = true
  /\ notna (Products.min_price p) = true
  /\ notna (Products.max_price p) = true.

(** ** High demand products *)

(** [demand[demand['date'] >= demand['date'].max() - timedelta(days=2)]] *)
Definition last3_demand (d : data) : list Demand.row :=
  match max_date (demand_metrics d) with
  | None => []
  | Some m => filter (fun r => (m - 2 <=? Demand.date r)%Z) (demand_metrics d)
  end.

(** A row of the aggregated window: the means of demand_score and of
    conversion_rate per product.  The sums of revenue and page_views, which
    the aggregation also computes, are not shown by the report and are left
    out. *)
Module RecentDemand.
Record row : Type := {
  product_id : Z;
  demand_score : fl;
  conversion_rate : fl
}.
End RecentDemand.

Definition recent3_means (d : data) : list RecentDemand.row :=
  let rows := last3_demand d in
  map (fun k =>
         let g := filter (fun r => (Demand.product_id r =? k)%Z) rows in
         {| RecentDemand.product_id := k;
            RecentDemand.demand_score := mean (map Demand.demand_score g);
            RecentDemand.conversion_rate :=
              mean (map Demand.conversion_rate g) |})
      (group_keys (map Demand.product_id rows)).

(** [df[[a, b]].min(axis=1)]: the smaller cell, NaN cells skipped. *)
Definition row_min (a b : fl) : fl :=
  match a, b with
  | Num x, Num y => if Qlt_bool y x then Num y else Num x
  | Num x, NaN => Num x
  | NaN, _ => b
  end.

Module HighDemandProducts.
Record row : Type := {
  product_id : Z;
  product_name : string;
  current_price : fl;
  max_price : fl;
  quantity_available : fl;
  demand_score : fl;
  conversion_rate : fl;
  price_increase_potential : fl;
  recommended_price : fl
}.
End HighDemandProducts.

(** A row of [analysis] with the two columns added to [high_demand]. *)
Definition mk_high_demand
    (x : Products.row * option RecentDemand.row * option Inventory.row)
    : HighDemandProducts.row :=
  let '(p, dm, i) := x in
  let cur := Products.current_price p in
  let mx := Products.max_price p in
  {| HighDemandProducts.product_id := Products.product_id p;
     HighDemandProducts.product_name := Products.product_name p;
     HighDemandProducts.current_price := cur;
     HighDemandProducts.max_price := mx;
     HighDemandProducts.quantity_available :=
       col Inventory.quantity_available i;
     HighDemandProducts.demand_score := col RecentDemand.demand_score dm;
     HighDemandProducts.conversion_rate :=
       col RecentDemand.conversion_rate dm;
     HighDemandProducts.price_increase_potential := round2 (fsub mx cur);
     HighDemandProducts.recommended_price :=
       row_min (round2 (fmul cur (Num 1.05))) mx |}.

(** The table printed by [high_demand_products]. *)
Definition high_demand_products (d : data) : list HighDemandProducts.row :=
  let m1 := merge_left Products.product_id RecentDemand.product_id
                       (products d) (recent3_means d) in
  let m2 := merge_left (fun x => Products.product_id (fst x))
                       Inventory.product_id m1 (inventory d) in
  let analysis := map mk_high_demand m2 in
  let high_demand :=
    filter (fun r => fgt (HighDemandProducts.demand_score r) (Num 7.5))
           analysis in
  sort_values_desc HighDemandProducts.demand_score high_demand.

(** Two floats that are the same number, or both NaN. *)
Definition feq (a b : fl) : Prop :=
  match a, b with
  | Num x, Num y => x == y
  | NaN, NaN => True
  | _, _ => False
  end.

(** Four days of demand for two products; the first is in high demand over
    the last three days. *)
Definition shop_week : data :=
  {| products := [product 1 "widget" (Num 100) (Num 80) (Num 104.5);
                  product 2 "gadget" (Num 50) (Num 40) (Num 60)];
     inventory := [stock 1 (Num 60) (Num 20) "in_stock";
                   stock 2 (Num 150) (Num 20) "in_stock"];
     demand_metrics := [snapshot 1 7 (Num 2) (Num 1);
                        snapshot 1 8 (Num 8) (Num 5);
                        snapshot 1 9 (Num 9) (Num 6);
                        snapshot 1 10 (Num 7) (Num 4);
                        snapshot 2 10 (Num 4) (Num 1)];
     competitor_prices := [quote 1 (Num 90); quote 1 (Num 110)] |}.

(** ** Competitor comparison *)

Definition Qmin2 (x y : Q) : Q := if Qlt_bool y x then y else x.
Definition Qmax2 (x y : Q) : Q := if Qlt_bool x y then y else x.

(** [min], [max] and [count] of a group: NaN cells are skipped. *)
Definition group_min (xs : list fl) : fl :=
  match numbers xs with
  | [] => NaN
  | y :: ys => Num (fold_left Qmin2 ys y)
  end.

Definition group_max (xs : list fl) : fl :=
  match numbers xs with
  | [] => NaN
  | y :: ys => Num (fold_left Qmax2 ys y)
  end.

Definition group_count (xs : list fl) : nat := List.length (numbers xs).

(** A row of the aggregated competitor prices. *)
Module CompetitorStats.
Record row : Type := {
  product_id : Z;
  avg_competitor_price : fl;
  min_competitor_price : fl;
  max_competitor_price : fl;
  competitor_count : nat
}.
End CompetitorStats.

Definition competitor_stats (d : data) : list CompetitorStats.row :=
  let rows := competitor_prices d in
  map (fun k =>
         let g := map CompetitorPrices.competitor_price
                      (filter (fun r => (CompetitorPrices.product_id r =? k)%Z)
                              rows) in
         {| CompetitorStats.product_id := k;
            CompetitorStats.avg_competitor_price := mean g;
            CompetitorStats.min_competitor_price := group_min g;
            CompetitorStats.max_competitor_price := group_max g;
            CompetitorStats.competitor_count := group_count g |})
      (group_keys (map CompetitorPrices.product_id rows)).

(** [q * 100] and [.round(2)] on a column that may hold infinities. *)
Definition times100 (q : quotient) : quotient :=
  match q with
  | Fin a => Fin (fmul a (Num 100))
  | PInf => PInf
  | NInf => NInf
  end.

Definition qround2 (q : quotient) : quotient :=
  match q with
  | Fin a => Fin (round2 a)
  | PInf => PInf
  | NInf => NInf
  end.

(** [x < 0] and [x > 0] on such a cell. *)
Definition qneg (q : quotient) : bool :=
  match q with
  | Fin a => flt a (Num 0)
  | PInf => false
  | NInf => true
  end.

Definition qpos (q : quotient) : bool :=
  match q with
  | Fin a => fgt a (Num 0)
  | PInf => true
  | NInf => false
  end.

Inductive position : Type :=
| Lower
| Higher
| Equal.

(** ['Lower' if x < 0 else 'Higher' if x > 0 else 'Equal'] *)
Definition position_of (x : quotient) : position :=
  if qneg x then Lower else if qpos x then Higher else Equal.

Module Comparison.
Record row : Type := {
  product_id : Z;
  product_name : string;
  current_price : fl;
  avg_competitor_price : fl;
  min_competitor_price : fl;
  max_competitor_price : fl;
  competitor_count : option nat;
  price_gap : fl;
  price_gap_pct : quotient;
  position : position
}.
End Comparison.

Definition mk_comparison
    (x : Products.row * option CompetitorStats.row) : Comparison.row :=
  let '(p, s) := x in
  let cur := Products.current_price p in
  let avg := col CompetitorStats.avg_competitor_price s in
  let gap := round2 (fsub cur avg) in
  let pct := qround2 (times100 (np_div gap avg)) in
  {| Comparison.product_id := Products.product_id p;
     Comparison.product_name := Products.product_name p;
     Comparison.current_price := cur;
     Comparison.avg_competitor_price := avg;
     Comparison.min_competitor_price :=
       col CompetitorStats.min_competitor_price s;
     Comparison.max_competitor_price :=
       col CompetitorStats.max_competitor_price s;
     Comparison.competitor_count :=
       option_map CompetitorStats.competitor_count s;
     Comparison.price_gap := gap;
     Comparison.price_gap_pct := pct;
     Comparison.position := position_of pct |}.

(** The table of [competitor_comparison].  The function also reads the
    competitors table, which it does not use. *)
Definition competitor_comparison (d : data) : list Comparison.row :=
  map mk_comparison
      (merge_left Products.product_id CompetitorStats.product_id
                  (products d) (competitor_stats d)).

(** ** The other columns of the products table, and the order items *)

(** A row of products.csv: the columns of [Products.row] and the two that
    the overview and the revenue analysis read besides. *)
Module Catalog.
Record row : Type := {
  product : Products.row;
  base_price : fl;
  base_cost : fl
}.
End Catalog.

Module OrderItems.
Record row : Type := {
  product_id : Z;
  order_id : option Z;
  quantity : fl;
  total_price : fl
}.
End OrderItems.

(** ** Product pricing overview *)

Module Overview.
Record row : Type := {
  product_id : Z;
  product_name : string;
  current_price : fl;
  quantity_available : fl;
  stock_status : option string;
  demand_score : fl;
  conversion_rate : fl;
  price_change_pct : quotient
}.
End Overview.

Definition mk_overview
    (x : Catalog.row * option Inventory.row * option Demand.row)
    : Overview.row :=
  let '(c, i, dm) := x in
  let p := Catalog.product c in
  let cur := Products.current_price p in
  let base := Catalog.base_price c in
  {| Overview.product_id := Products.product_id p;
     Overview.product_name := Products.product_name p;
     Overview.current_price := cur;
     Overview.quantity_available := col Inventory.quantity_available i;
     Overview.stock_status :=
       match i with Some y => Inventory.stock_status y | None => None end;
     Overview.demand_score := col Demand.demand_score dm;
     Overview.conversion_rate := col Demand.conversion_rate dm;
     Overview.price_change_pct :=
       qround2 (times100 (np_div (fsub cur base) base)) |}.

(** The latest snapshots of a demand table, as in [latest_demand]. *)
Definition latest_of (dm : list Demand.row) : list Demand.row :=
  match max_date dm with
  | None => []
  | Some m => filter (fun r => (Demand.date r =? m)%Z) dm
  end.

(** The table of [product_pricing_overview]. *)
Definition product_pricing_overview (cat : list Catalog.row)
    (inv : list Inventory.row) (dm : list Demand.row) : list Overview.row :=
  let m1 := merge_left (fun c => Products.product_id (Catalog.product c))
                       Inventory.product_id cat inv in
  let m2 := merge_left
              (fun x => Products.product_id (Catalog.product (fst x)))
              Demand.product_id m1 (latest_of dm) in
  map mk_overview m2.

(** ** Revenue analysis *)

(** [sum] of a group: NaN cells are skipped, and nothing sums to 0. *)
Definition group_sum (xs : list fl) : fl :=
  Num (Qred (fold_left Qplus (numbers xs) 0)).

(** [count] of a column of identifiers: the cells that are filled. *)
Definition count_filled (xs : list (option Z)) : nat :=
  List.length (filter (fun o => match o with Some _ => true | None => false end)
                      xs).

(** A row of the aggregated order items. *)
Module Sales.
Record row : Type := {
  product_id : Z;
  units_sold : fl;
  total_revenue : fl;
  order_count : nat
}.
End Sales.

Definition sales (items : list OrderItems.row) : list Sales.row :=
  map (fun k =>
         let g := filter (fun r => (OrderItems.product_id r =? k)%Z) items in
         {| Sales.product_id := k;
            Sales.units_sold := group_sum (map OrderItems.quantity g);
            Sales.total_revenue := group_sum (map OrderItems.total_price g);
            Sales.order_count := count_filled (map OrderItems.order_id g) |})
      (group_keys (map OrderItems.product_id items)).

Module Revenue.
Record row : Type := {
  product_id : Z;
  product_name : string;
  units_sold : fl;
  total_revenue : fl;
  order_count : nat;
  total_cost : fl;
  gross_profit : fl;
  profit_margin_pct : quotient
}.
End Revenue.

(** A row of [analysis]: the merge, [fillna(0)], and the three computed
    columns. *)
Definition mk_revenue (x : Catalog.row * option Sales.row) : Revenue.row :=
  let '(c, s) := x in
  let p := Catalog.product c in
  let units := fillna (Num 0) (col Sales.units_sold s) in
  let rev := fillna (Num 0) (col Sales.total_revenue s) in
  let cost := fmul (fillna (Num 0) (Catalog.base_cost c)) units in
  let profit := fsub rev cost in
  {| Revenue.product_id := Products.product_id p;
     Revenue.product_name := Products.product_name p;
     Revenue.units_sold := units;
     Revenue.total_revenue := rev;
     Revenue.order_count :=
       match s with Some y => Sales.order_count y | None => 0%nat end;
     Revenue.total_cost := cost;
     Revenue.gross_profit := profit;
     Revenue.profit_margin_pct := qround2 (times100 (np_div profit rev)) |}.

(** The sorted table of [revenue_analysis]. *)
Definition revenue_table (cat : list Catalog.row)
    (items : list OrderItems.row) : list Revenue.row :=
  sort_values_desc Revenue.total_revenue
    (map mk_revenue
         (merge_left (fun c => Products.product_id (Catalog.product c))
                     Sales.product_id cat (sales items))).

(** Sum of two cells of a column that may hold infinities. *)
Definition qadd (a b : quotient) : quotient :=
  match a, b with
  | Fin (Num x), Fin (Num y) => Fin (Num (x + y))
  | Fin NaN, _ => Fin NaN
  | _, Fin NaN => Fin NaN
  | PInf, NInf => Fin NaN
  | NInf, PInf => Fin NaN
  | PInf, _ => PInf
  | _, PInf => PInf
  | NInf, _ => NInf
  | _, NInf => NInf
  end.

Definition qisna (q : quotient) : bool :=
  match q with Fin NaN => true | _ => false end.

(** [mean] of such a column: NaN cells are skipped. *)
Definition qmean (xs : list quotient) : quotient :=
  match filter (fun q => negb (qisna q)) xs with
  | [] => Fin NaN
  | ys =>
      match fold_left qadd ys (Fin (Num 0)) with
      | Fin (Num x) =>
          Fin (Num (Qred (x / inject_Z (Z.of_nat (List.length ys)))))
      | q => q
      end
  end.

(** The three figures printed under the table. *)
Record revenue_summary : Type := {
  total_revenue : fl;
  total_profit : fl;
  average_margin : quotient
}.

Definition revenue_analysis (cat : list Catalog.row)
    (items : list OrderItems.row) : list Revenue.row * revenue_summary :=
  let analysis := revenue_table cat items in
  (analysis,
   {| total_revenue := group_sum (map Revenue.total_revenue analysis);
      total_profit := group_sum (map Revenue.gross_profit analysis);
      average_margin := qmean (map Revenue.profit_margin_pct analysis) |}).

(** Three catalogued products, the third never ordered, and an order item of
    a product that is not in the catalogue. *)
Definition sample_catalog : list Catalog.row :=
  [ {| Catalog.product := product 1 "widget" (Num 100) (Num 80) (Num 120);
       Catalog.base_price := Num 90; Catalog.base_cost := Num 60 |};
    {| Catalog.product := product 2 "gadget" (Num 50) (Num 40) (Num 60);
       Catalog.base_price := Num 50; Catalog.base_cost := Num 30 |};
    {| Catalog.product := product 3 "gizmo" (Num 20) (Num 10) (Num 30);
       Catalog.base_price := Num 0; Catalog.base_cost := Num 12 |} ].

Definition item (id order : Z) (qty price : fl) : OrderItems.row :=
  {| OrderItems.product_id := id;
     OrderItems.order_id := Some order;
     OrderItems.quantity := qty;
     OrderItems.total_price := price |}.

Definition sample_items : list OrderItems.row :=
  [item 1 1 (Num 2) (Num 200); item 2 1 (Num 1) (Num 50);
   item 2 2 (Num 3) (Num 150); item 9 2 (Num 1) (Num 999)].

(** Sum of a list of numbers. *)
Definition Qsum (l : list Q) : Q := fold_right Qplus 0 l.

(** The order items whose product is in the catalogue. *)
Definition catalogued (cat : list Catalog.row) (items : list OrderItems.row)
    : list OrderItems.row :=
  filter (fun i =>
            existsb (fun c => (Products.product_id (Catalog.product c)
                               =? OrderItems.product_id i)%Z) cat)
         items.

(** The cells that the overview and the merged frame of the
    recommendations have in common. *)
Definition overview_cells (r : Overview.row)
    : Z * string * fl * fl * option string * fl * fl :=
  (Overview.product_id r, Overview.product_name r, Overview.current_price r,
   Overview.quantity_available r, Overview.stock_status r,
   Overview.demand_score r, Overview.conversion_rate r).

Definition reco_cells (r : Reco.row)
    : Z * string * fl * fl * option string * fl * fl :=
  (Reco.product_id r, Reco.product_name r, Reco.current_price r,
   Reco.quantity_available r, Reco.stock_status r,
   Reco.demand_score r, Reco.conversion_rate r).

(** ** The run of all reports *)

(** The twelve tables [load_data] looks for. *)
Module Table.
Inductive t : Type :=
| categories
| products
| customers
| competitors
| inventory
| pricing_history
| competitor_prices
| demand_metrics
| pricing_rules
| orders
| order_items
| price_adjustments.
End Table.

(** The dictionary that [load_data] returns: a table is there when its file
    exists.  The reports read five tables; of the competitors table and of
    the six tables no report reads, only the presence is kept
    ([ld_others]: one of those six is loaded). *)
Record loaded : Type := {
  ld_products : option (list Catalog.row);
  ld_inventory : option (list Inventory.row);
  ld_demand_metrics : option (list Demand.row);
  ld_competitor_prices : option (list CompetitorPrices.row);
  ld_order_items : option (list OrderItems.row);
  ld_competitors : bool;
  ld_others : bool
}.

(** [not data]: no table at all was loaded. *)
Definition nothing_loaded (l : loaded) : bool :=
  match ld_products l, ld_inventory l, ld_demand_metrics l,
        ld_competitor_prices l, ld_order_items l with
  | None, None, None, None, None =>
      negb (ld_competitors l) && negb (ld_others l)
  | _, _, _, _, _ => false
  end.

(** What a report can raise: a table missing from the dictionary, or an
    error of its computation. *)
Inductive exn : Type :=
| KeyError (table : Table.t)
| Raised (e : error).

Inductive attempt (A : Type) : Type :=
| Done (a : A)
| Failed (e : exn).
Arguments Done {A} a.
Arguments Failed {A} e.

Definition and_then {A B : Type} (m : attempt A) (f : A -> attempt B)
    : attempt B :=
  match m with
  | Done a => f a
  | Failed e => Failed e
  end.

Notation "x <~ m ;; k" := (and_then m (fun x => k))
  (at level 61, m at next level, right associativity).

(** [data[name]] *)
Definition get {A : Type} (name : Table.t) (o : option A) : attempt A :=
  match o with
  | Some x => Done x
  | None => Failed (KeyError name)
  end.

Definition get_present (name : Table.t) (b : bool) : attempt unit :=
  if b then Done tt else Failed (KeyError name).

(** The tables of the four reports that take a [data]. *)
Definition as_data (cat : list Catalog.row) (inv : list Inventory.row)
    (dm : list Demand.row) (cp : list CompetitorPrices.row) : data :=
  {| products := map Catalog.product cat;
     inventory := inv;
     demand_metrics := dm;
     competitor_prices := cp |}.

(** What a report prints. *)
Inductive printed : Type :=
| POverview (t : list Overview.row)
| PComparison (t : list Comparison.row)
| PHighDemand (t : list HighDemandProducts.row)
| PRevenue (t : list Revenue.row * revenue_summary)
| PAlerts (t : list Alert.row * list Alert.row)
| PPricing (t : list Recommendation.t).

(** Each report with the lookups it starts with, in the order of the
    source. *)
Definition overview_report (l : loaded) : attempt printed :=
  cat <~ get Table.products (ld_products l) ;;
  inv <~ get Table.inventory (ld_inventory l) ;;
  dm <~ get Table.demand_metrics (ld_demand_metrics l) ;;
  Done (POverview (product_pricing_overview cat inv dm)).

Definition comparison_report (l : loaded) : attempt printed :=
  cat <~ get Table.products (ld_products l) ;;
  cp <~ get Table.competitor_prices (ld_competitor_prices l) ;;
  _ <~ get_present Table.competitors (ld_competitors l) ;;
  Done (PComparison (competitor_comparison (as_data cat [] [] cp))).

Definition high_demand_report (l : loaded) : attempt printed :=
  cat <~ get Table.products (ld_products l) ;;
  dm <~ get Table.demand_metrics (ld_demand_metrics l) ;;
  inv <~ get Table.inventory (ld_inventory l) ;;
  Done (PHighDemand (high_demand_products (as_data cat inv dm []))).

Definition revenue_report (l : loaded) : attempt printed :=
  cat <~ get Table.products (ld_products l) ;;
  items <~ get Table.order_items (ld_order_items l) ;;
  Done (PRevenue (revenue_analysis cat items)).

Definition alerts_report (l : loaded) : attempt printed :=
  cat <~ get Table.products (ld_products l) ;;
  inv <~ get Table.inventory (ld_inventory l) ;;
  dm <~ get Table.demand_metrics (ld_demand_metrics l) ;;
  Done (PAlerts (inventory_alerts (as_data cat inv dm []))).

Definition pricing_report (l : loaded) : attempt printed :=
  cat <~ get Table.products (ld_products l) ;;
  inv <~ get Table.inventory (ld_inventory l) ;;
  dm <~ get Table.demand_metrics (ld_demand_metrics l) ;;
  cp <~ get Table.competitor_prices (ld_competitor_prices l) ;;
  match pricing_recommendations (as_data cat inv dm cp) with
  | Ok t => Done (PPricing t)
  | Err e => Failed (Raised e)
  end.

(** The [try] block of [main]: the reports in order, up to the first
    exception. *)
Inductive outcome : Type :=
| NoData
| Completed (reports : list printed)
| Aborted (reports : list printed) (e : exn).

Fixpoint run_reports (rs : list (loaded -> attempt printed)) (l : loaded)
    (done : list printed) : outcome :=
  match rs with
  | [] => Completed done
  | r :: rest =>
      match r l with
      | Done p => run_reports rest l (done ++ [p])
      | Failed e => Aborted done e
      end
  end.

Definition analyses : list (loaded -> attempt printed) :=
  [overview_report; comparison_report; high_demand_report;
   revenue_report; alerts_report; pricing_report].

Definition main (l : loaded) : outcome :=
  if nothing_loaded l then NoData else run_reports analyses l [].

(** The table [t] is not in the dictionary; of the six tables that no
    report reads this is never said. *)
Definition missing (l : loaded) (t : Table.t) : Prop :=
  match t with
  | Table.products => ld_products l = None
  | Table.inventory => ld_inventory l = None
  | Table.demand_metrics => ld_demand_metrics l = None
  | Table.competitor_prices => ld_competitor_prices l = None
  | Table.order_items => ld_order_items l = None
  | Table.competitors => ld_competitors l = false
  | _ => False
  end.

(** A load in which every table is there except competitors. *)
Definition load_without_competitors : loaded :=
  {| ld_products := Some sample_catalog;
     ld_inventory := Some (inventory shop_week);
     ld_demand_metrics := Some (demand_metrics shop_week);
     ld_competitor_prices := Some (competitor_prices shop_week);
     ld_order_items := Some sample_items;
     ld_competitors := false;
     ld_others := true |}.

(** A complete load whose first product, in high demand, has price 0. *)
Definition load_zero_price : loaded :=
  {| ld_products :=
       Some [ {| Catalog.product := product 1 "widget" (Num 0) (Num 0)
                                            (Num 120);
                 Catalog.base_price := Num 90;
                 Catalog.base_cost := Num 60 |} ];
     ld_inventory := Some (inventory shop_sorting);
     ld_demand_metrics := Some (demand_metrics shop_sorting);
     ld_competitor_prices := Some [];
     ld_order_items := Some sample_items;
     ld_competitors := true;
     ld_others := false |}.

(** * Properties *)

(** ** Comparisons and rounding on the rationals *)

Lemma Qlt_bool_iff (x y : Q) : Qlt_bool x y = true <-> x < y.
Proof.
  unfold Qlt_bool. rewrite negb_true_iff.
  destruct (Qle_bool y x) eqn:E.
  - apply Qle_bool_iff in E. split; [discriminate | intro; lra].
  - split; [intros _ | reflexivity].
    destruct (Qlt_le_dec x y) as [H | H]; [exact H |].
    apply Qle_bool_iff in H. congruence.
Qed.

Lemma Qlt_bool_false (x y : Q) : Qlt_bool x y = false <-> y <= x.
Proof.
  unfold Qlt_bool. rewrite negb_false_iff. apply Qle_bool_iff.
Qed.

Lemma Qle_bool_false (x y : Q) : Qle_bool x y = false <-> y < x.
Proof.
  rewrite <- Qlt_bool_iff. unfold Qlt_bool.
  destruct (Qle_bool x y); simpl; split; congruence.
Qed.

Lemma Qeq_zero_true (x : Q) : Qeq_zero x = true <-> x == 0.
Proof. unfold Qeq_zero. apply Qeq_bool_iff. Qed.

Lemma Qeq_zero_false (x : Q) : Qeq_zero x = false <-> ~ x == 0.
Proof.
  rewrite <- Qeq_zero_true. destruct (Qeq_zero x); split; congruence.
Qed.

Lemma round_half_even_bounds (x : Q) :
  (Qfloor x <= round_half_even x <= Qfloor x + 1)%Z.
Proof.
  unfold round_half_even.
  destruct (Qcompare _ _); [destruct (Z.even _) | |]; lia.
Qed.

Lemma round_half_even_le (x y : Q) :
  x <= y -> (round_half_even x <= round_half_even y)%Z.
Proof.
  intros Hxy.
  pose proof (Qfloor_resp_le _ _ Hxy) as Hf.
  destruct (Z.eq_dec (Qfloor x) (Qfloor y)) as [E | N].
  - unfold round_half_even. rewrite <- E.
    set (f := inject_Z (Qfloor x)).
    destruct (Qcompare_spec (x - f) (1 # 2)) as [H1 | H1 | H1];
      destruct (Qcompare_spec (y - f) (1 # 2)) as [H2 | H2 | H2];
      try destruct (Z.even (Qfloor x)); try lia; exfalso; lra.
  - pose proof (round_half_even_bounds x).
    pose proof (round_half_even_bounds y). lia.
Qed.

Lemma round_half_even_Z (n : Z) : round_half_even (inject_Z n) = n.
Proof.
  unfold round_half_even. rewrite Qfloor_Z.
  destruct (Qcompare_spec (inject_Z n - inject_Z n) (1 # 2)) as [H | H | H];
    [exfalso; lra | reflexivity | exfalso; lra].
Qed.

Lemma round_half_even_comp (x y : Q) :
  x == y -> round_half_even x = round_half_even y.
Proof.
  intros E. apply Z.le_antisymm; apply round_half_even_le; lra.
Qed.

Lemma Qround_to_le (s : positive) (x y : Q) :
  x <= y -> Qround_to s x <= Qround_to s y.
Proof.
  intros H. unfold Qround_to. rewrite !Qred_correct.
  assert (Hs : 0 < inject_Z (Zpos s)) by (unfold Qlt; simpl; lia).
  assert (Hm : x * inject_Z (Zpos s) <= y * inject_Z (Zpos s)) by nra.
  apply round_half_even_le in Hm.
  unfold Qle; simpl. nia.
Qed.

Lemma Qround_to_grid (s : positive) (x : Q) :
  on_grid s x -> Qround_to s x == x.
Proof.
  unfold on_grid, Qround_to. intros H. rewrite Qred_correct.
  rewrite <- (round_half_even_comp _ _ H), round_half_even_Z.
  rewrite Qmake_Qdiv, H.
  assert (Hs : 0 < inject_Z (Zpos s)) by (unfold Qlt; simpl; lia).
  field. lra.
Qed.

(** ** Floats *)

Lemma fround_to_le (s : positive) (a b : fl) :
  fle a b = true -> fle (fround_to s a) (fround_to s b) = true.
Proof.
  destruct a, b; simpl; try congruence.
  rewrite !Qle_bool_iff. apply Qround_to_le.
Qed.

Lemma round2_lower (lo a : fl) :
  decimals2 lo -> fle lo a = true -> fle lo (round2 a) = true.
Proof.
  intros Hd H. apply (fround_to_le 100) in H. fold round2 in H.
  destruct lo, a; simpl in *; try congruence.
  rewrite Qle_bool_iff in *. rewrite (Qround_to_grid _ _ Hd) in H. exact H.
Qed.

Lemma round2_upper (hi a : fl) :
  decimals2 hi -> fle a hi = true -> fle (round2 a) hi = true.
Proof.
  intros Hd H. apply (fround_to_le 100) in H. fold round2 in H.
  destruct hi, a; simpl in *; try congruence.
  rewrite Qle_bool_iff in *. rewrite (Qround_to_grid _ _ Hd) in H. exact H.
Qed.

Lemma round2_nonneg (a : fl) :
  fle (Num 0) a = true -> fle (Num 0) (round2 a) = true.
Proof. intros H. apply (fround_to_le 100) in H. exact H. Qed.

Lemma round2_nonpos (a : fl) :
  fle a (Num 0) = true -> fle (round2 a) (Num 0) = true.
Proof. intros H. apply (fround_to_le 100) in H. exact H. Qed.

(** Booleans of the float comparisons as facts on the rationals. *)
Ltac b2p :=
  repeat match goal with
  | H : (_ && _) = true |- _ => apply andb_true_iff in H; destruct H
  | H : Qle_bool _ _ = true |- _ => apply Qle_bool_iff in H
  | H : Qle_bool _ _ = false |- _ => apply Qle_bool_false in H
  | H : Qlt_bool _ _ = true |- _ => apply Qlt_bool_iff in H
  | H : Qlt_bool _ _ = false |- _ => apply Qlt_bool_false in H
  | H : Qeq_zero _ = true |- _ => apply Qeq_zero_true in H
  | H : Qeq_zero _ = false |- _ => apply Qeq_zero_false in H
  | |- Qle_bool _ _ = true => apply Qle_bool_iff
  | |- Qle_bool _ _ = false => apply Qle_bool_false
  | |- Qlt_bool _ _ = true => apply Qlt_bool_iff
  | |- Qlt_bool _ _ = false => apply Qlt_bool_false
  end.

Ltac fl_cases :=
  cbv [py_min py_max fgt fge notna isna] in *;
  repeat match goal with
  | H : context [if ?b then _ else _] |- _ => destruct b eqn:?
  | |- context [if ?b then _ else _] => destruct b eqn:?
  end;
  cbn [flt fle fsub fmul fdiv_nz negb andb] in *.

(** ** The rule chain *)

Lemma apply_rules_fired (row : Reco.row) :
  apply_rules row =
  match fired row with
  | Some k => {| l_action := Some (rule_action k);
                 l_reason := Some (rule_reason k row);
                 l_recommended_price := rule_price k row |}
  | None => {| l_action := None; l_reason := None;
               l_recommended_price := Reco.current_price row |}
  end.
Proof.
  unfold apply_rules, fired.
  destruct (rule1 row); [reflexivity |].
  destruct (rule2 row); [reflexivity |].
  destruct (rule3 row); [reflexivity |].
  destruct (rule4 row); reflexivity.
Qed.

Lemma emit_fired (row : Reco.row) :
  emit row =
  match fired row with
  | Some k => r <- rule_build k row ;; Ok (Some r)
  | None => Ok None
  end.
Proof.
  unfold emit. rewrite apply_rules_fired.
  destruct (fired row); reflexivity.
Qed.

(** [build] fails exactly on a zero [current_price]. *)
Lemma build_zero (row : Reco.row) (a : action) (rs : option reason) (p : fl) :
  is_zero (Reco.current_price row) = true ->
  build row a rs p = Err ZeroDivisionError.
Proof. intros H. unfold build, py_div. rewrite H. reflexivity. Qed.

Lemma build_nonzero (row : Reco.row) (a : action) (rs : option reason)
    (p : fl) :
  is_zero (Reco.current_price row) = false ->
  build row a rs p =
  Ok {| Recommendation.product_name := Reco.product_name row;
        Recommendation.current_price := Reco.current_price row;
        Recommendation.recommended_price := round2 p;
        Recommendation.action := a;
        Recommendation.change_pct :=
          round2 (fmul (fdiv_nz (fsub p (Reco.current_price row))
                                (Reco.current_price row)) (Num 100));
        Recommendation.reason := rs |}.
Proof. intros H. unfold build, py_div. rewrite H. reflexivity. Qed.

Lemma emit_Some_inv (row : Reco.row) (r : Recommendation.t) :
  emit row = Ok (Some r) ->
  exists k, fired row = Some k
            /\ is_zero (Reco.current_price row) = false
            /\ rule_build k row = Ok r.
Proof.
  rewrite emit_fired. destruct (fired row) as [k |]; [| discriminate].
  intros H. exists k. split; [reflexivity |].
  destruct (is_zero (Reco.current_price row)) eqn:Z.
  - unfold rule_build in H. rewrite build_zero in H by exact Z. discriminate.
  - split; [reflexivity |].
    destruct (rule_build k row); simpl in H; congruence.
Qed.

Lemma fired_cond (row : Reco.row) (k : rule) :
  fired row = Some k ->
  match k with
  | R1 => rule1 row = true
  | R2 => rule1 row = false /\ rule2 row = true
  | R3 => rule1 row = false /\ rule2 row = false /\ rule3 row = true
  | R4 => rule1 row = false /\ rule2 row = false /\ rule3 row = false
          /\ rule4 row = true
  end.
Proof.
  unfold fired.
  destruct (rule1 row), (rule2 row), (rule3 row), (rule4 row);
    intros H; inversion H; subst; auto.
Qed.

(** ** Price bounds *)

Lemma rule_price_bounds (row : Reco.row) (k : rule) :
  product_invariant row ->
  fle (Num 0) (Reco.current_price row) = true ->
  fired row = Some k ->
  fle (Reco.min_price row) (rule_price k row) = true
  /\ fle (rule_price k row) (Reco.max_price row) = true.
Proof.
  intros [Hlo Hhi] Hmax Hk. apply fired_cond in Hk.
  destruct row as [pid name cur mn mx qty st ds cr avg].
  destruct k;
    cbv [rule_price price1 price2 price3 price4 rule1 rule2 rule3 rule4
         Reco.min_price Reco.max_price Reco.current_price
         Reco.avg_competitor_price Reco.demand_score
         Reco.quantity_available Reco.stock_status] in *;
    [ clear Hk | clear Hk | destruct Hk as (_ & _ & Hk) | clear Hk ];
    destruct cur, mn, mx; try discriminate; try destruct avg;
    fl_cases; try discriminate; b2p; split; b2p; try reflexivity;
    try lra.
Qed.

(** C1 as stated fails on two inputs that satisfy the Product invariant:
    with max_price = 120.006 rule 1 clamps to 120.006 and [round(_, 2)]
    emits 120.01, above max_price; with current_price = min_price = -100
    rule 1 emits -105, below min_price. *)
Lemma C1_counterexample :
  (product_invariant row_fine_bound
   /\ exists r, emit row_fine_bound = Ok (Some r)
        /\ Recommendation.recommended_price r = Num 120.01
        /\ fle (Recommendation.recommended_price r)
               (Reco.max_price row_fine_bound) = false)
  /\ (product_invariant row_negative
      /\ exists r, emit row_negative = Ok (Some r)
           /\ Recommendation.recommended_price r = Num (-105)
           /\ fle (Reco.min_price row_negative)
                  (Recommendation.recommended_price r) = false).
Proof.
  split; (split; [split; reflexivity |]);
    eexists; (split; [vm_compute; reflexivity |]); split; reflexivity.
Qed.

(** C1 (amended): for a row that satisfies the Product invariant and whose
    current_price is not negative, every emitted recommendation comes from a
    formula result [p] with min_price <= p <= max_price (rule 3 included);
    the emitted recommended_price is [round(p, 2)], which lies between
    round(min_price, 2) and round(max_price, 2), hence above min_price when
    min_price has at most two decimals and below max_price when max_price
    has at most two decimals. *)
Theorem C1_recommended_price_within_bounds
    (row : Reco.row) (r : Recommendation.t) :
  product_invariant row ->
  fle (Num 0) (Reco.current_price row) = true ->
  emit row = Ok (Some r) ->
  let p := l_recommended_price (apply_rules row) in
  Recommendation.recommended_price r = round2 p
  /\ fle (Reco.min_price row) p = true
  /\ fle p (Reco.max_price row) = true
  /\ fle (round2 (Reco.min_price row))
         (Recommendation.recommended_price r) = true
  /\ fle (Recommendation.recommended_price r)
         (round2 (Reco.max_price row)) = true
  /\ (decimals2 (Reco.min_price row) ->
      fle (Reco.min_price row) (Recommendation.recommended_price r) = true)
  /\ (decimals2 (Reco.max_price row) ->
      fle (Recommendation.recommended_price r) (Reco.max_price row) = true).
Proof.
  intros Hinv Hpos He.
  destruct (emit_Some_inv _ _ He) as (k & Hk & Hz & Hb).
  destruct (rule_price_bounds _ _ Hinv Hpos Hk) as [Hlo Hhi].
  rewrite apply_rules_fired, Hk. cbn [l_recommended_price].
  unfold rule_build in Hb. rewrite build_nonzero in Hb by exact Hz.
  inversion Hb; subst r; clear Hb. cbn [Recommendation.recommended_price].
  repeat split; auto.
  - apply (fround_to_le 100); exact Hlo.
  - apply (fround_to_le 100); exact Hhi.
  - intros Hd. apply round2_lower; assumption.
  - intros Hd. apply round2_upper; assumption.
Qed.

Lemma C1_witness :
  exists r, emit row_high_demand = Ok (Some r)
    /\ fle (Reco.min_price row_high_demand)
           (Recommendation.recommended_price r) = true
    /\ fle (Recommendation.recommended_price r)
           (Reco.max_price row_high_demand) = true.
Proof.
  eexists. split; [vm_compute; reflexivity |].
  pose proof (C1_recommended_price_within_bounds row_high_demand _
                ltac:(split; reflexivity) ltac:(reflexivity)
                ltac:(vm_compute; reflexivity))
    as (_ & _ & _ & _ & _ & Hlo & Hhi).
  split; [apply Hlo | apply Hhi]; vm_compute; reflexivity.
Defined.

(** ** Left merges *)

Lemma merge_left_In {L R : Type} (lkey : L -> Z) (rkey : R -> Z)
    (l : list L) (r : list R) (x : L) (o : option R) :
  In (x, o) (merge_left lkey rkey l r) <->
  In x l /\ matched lkey rkey r x o.
Proof.
  unfold merge_left. rewrite in_flat_map. split.
  - intros (x' & Hx' & Hin).
    destruct (filter (fun y => (rkey y =? lkey x')%Z) r) as [| m ms] eqn:F.
    + destruct Hin as [E | []]. inversion E; subst. split; [exact Hx' |].
      intros y Hy Hk.
      assert (Hf : In y (filter (fun y => (rkey y =? lkey x)%Z) r))
        by (apply filter_In; split; [exact Hy | apply Z.eqb_eq; exact Hk]).
      rewrite F in Hf. exact Hf.
    + apply in_map_iff in Hin. destruct Hin as (y & E & Hy).
      inversion E; subst. split; [exact Hx' |].
      rewrite <- F in Hy. apply filter_In in Hy.
      destruct Hy as [Hy Hk]. apply Z.eqb_eq in Hk. split; assumption.
  - intros [Hx Hm]. exists x. split; [exact Hx |].
    destruct o as [y |]; simpl in Hm.
    + destruct Hm as [Hy Hk].
      assert (Hf : In y (filter (fun y => (rkey y =? lkey x)%Z) r))
        by (apply filter_In; split; [exact Hy | apply Z.eqb_eq; exact Hk]).
      destruct (filter (fun y => (rkey y =? lkey x)%Z) r) as [| m ms];
        [destruct Hf |].
      apply in_map_iff. exists y. split; [reflexivity | exact Hf].
    + destruct (filter (fun y => (rkey y =? lkey x)%Z) r) as [| m ms] eqn:F;
        [left; reflexivity |].
      exfalso.
      assert (Hf : In m (filter (fun y => (rkey y =? lkey x)%Z) r))
        by (rewrite F; left; reflexivity).
      apply filter_In in Hf. destruct Hf as [Hy Hk]. apply Z.eqb_eq in Hk.
      exact (Hm m Hy Hk).
Qed.

(** Every row of [reco] is a product joined with its inventory row, its
    demand snapshot of the latest date and its competitor average, each
    absent exactly when no key matches. *)
Lemma reco_In (d : data) (row : Reco.row) :
  In row (reco d) <->
  exists p i dm c,
    row = mk_reco (p, i, dm, c)
    /\ In p (products d)
    /\ matched Products.product_id Inventory.product_id (inventory d) p i
    /\ matched Products.product_id Demand.product_id (latest_demand d) p dm
    /\ matched Products.product_id fst (avg_comp d) p c.
Proof.
  unfold reco. rewrite in_map_iff. split.
  - intros ([[[p i] dm] c] & E & H).
    apply merge_left_In in H. destruct H as [H Hc].
    apply merge_left_In in H. destruct H as [H Hdm].
    apply merge_left_In in H. destruct H as [Hp Hi].
    exists p, i, dm, c. auto.
  - intros (p & i & dm & c & E & Hp & Hi & Hdm & Hc).
    exists (p, i, dm, c). split; [auto |].
    apply merge_left_In. split; [| exact Hc].
    apply merge_left_In. split; [| exact Hdm].
    apply merge_left_In. split; assumption.
Qed.

(** ** Missing demand *)

Lemma no_demand_rules (row : Reco.row) :
  Reco.demand_score row = NaN ->
  rule1 row = false /\ rule2 row = false /\ rule4 row = false.
Proof.
  intros H. unfold rule1, rule2, rule4. rewrite H.
  repeat split; try reflexivity. apply andb_false_r.
Qed.

Lemma no_snapshot_demand_score (d : data) (row : Reco.row) :
  In row (reco d) ->
  (forall dm, In dm (latest_demand d) ->
              Demand.product_id dm <> Reco.product_id row) ->
  Reco.demand_score row = NaN.
Proof.
  intros Hin Hno. apply reco_In in Hin.
  destruct Hin as (p & i & [dm |] & c & -> & _ & _ & Hdm & _);
    [| reflexivity].
  destruct Hdm as [Hdm Hk]. exfalso. exact (Hno dm Hdm Hk).
Qed.

(** C2 as stated fails: product 2 of [shop_stale_demand] has no snapshot on
    the latest date (day 10), and the run still recommends a DECREASE for
    it, through rule 3. *)
Lemma C2_counterexample :
  (forall dm, In dm (latest_demand shop_stale_demand) ->
              Demand.product_id dm <> 2%Z)
  /\ exists out r,
       pricing_recommendations shop_stale_demand = Ok out
       /\ In r out
       /\ Recommendation.product_name r = "gadget"%string
       /\ Recommendation.action r = DECREASE
       /\ Recommendation.recommended_price r = Num 83.3.
Proof.
  split.
  - intros dm Hdm. vm_compute in Hdm. destruct Hdm as [<- | []].
    discriminate.
  - eexists. eexists. split; [vm_compute; reflexivity |].
    split; [right; left; reflexivity |]. repeat split.
Qed.

(** C2 (amended): a product with no demand snapshot on the global latest
    date has a missing demand_score in the joined view, so rules 1, 2 and 4
    do not fire for it; rule 3 still applies: no recommendation is emitted
    when rule 3's condition fails, and every recommendation emitted for it is
    rule 3's DECREASE, which requires a known competitor average with
    current_price > avg_competitor_price * 1.05. *)
Theorem C2_no_snapshot_only_rule3 (d : data) (row : Reco.row) :
  In row (reco d) ->
  (forall dm, In dm (latest_demand d) ->
              Demand.product_id dm <> Reco.product_id row) ->
  Reco.demand_score row = NaN
  /\ rule1 row = false /\ rule2 row = false /\ rule4 row = false
  /\ (rule3 row = false -> emit row = Ok None)
  /\ (forall r, emit row = Ok (Some r) ->
        rule3 row = true
        /\ Recommendation.action r = DECREASE
        /\ Recommendation.recommended_price r = round2 (price3 row)).
Proof.
  intros Hin Hno.
  pose proof (no_snapshot_demand_score _ _ Hin Hno) as Hds.
  destruct (no_demand_rules _ Hds) as (H1 & H2 & H4).
  repeat split; try assumption.
  - intros H3. rewrite emit_fired. unfold fired.
    rewrite H1, H2, H3, H4. reflexivity.
  - destruct (emit_Some_inv _ _ H) as (k & Hk & _).
    apply fired_cond in Hk. destruct k; intuition congruence.
  - destruct (emit_Some_inv _ _ H) as (k & Hk & Hz & Hb).
    pose proof (fired_cond _ _ Hk) as Hc.
    destruct k; try (exfalso; intuition congruence).
    unfold rule_build in Hb. rewrite build_nonzero in Hb by exact Hz.
    inversion Hb. reflexivity.
  - destruct (emit_Some_inv _ _ H) as (k & Hk & Hz & Hb).
    pose proof (fired_cond _ _ Hk) as Hc.
    destruct k; try (exfalso; intuition congruence).
    unfold rule_build in Hb. rewrite build_nonzero in Hb by exact Hz.
    inversion Hb. reflexivity.
Qed.

Lemma C2_witness :
  let row := nth 1 (reco shop_stale_demand) row_high_demand in
  Reco.product_id row = 2%Z
  /\ Reco.demand_score row = NaN
  /\ rule1 row = false /\ rule2 row = false /\ rule4 row = false.
Proof.
  intros row. split; [reflexivity |].
  assert (Hin : In row (reco shop_stale_demand))
    by (right; left; reflexivity).
  assert (Hno : forall dm, In dm (latest_demand shop_stale_demand) ->
                           Demand.product_id dm <> Reco.product_id row).
  { intros dm Hdm. vm_compute in Hdm. destruct Hdm as [<- | []].
    discriminate. }
  destruct (C2_no_snapshot_only_rule3 shop_stale_demand row Hin Hno)
    as (Hds & H1 & H2 & H4 & _).
  repeat split; assumption.
Defined.

(** ** One recommendation per row *)

Lemma iterrows_one (row : Reco.row) (acc out : list Recommendation.t) :
  iterrows [row] acc = Ok out ->
  (emit row = Ok None /\ out = acc)
  \/ exists r, emit row = Ok (Some r) /\ out = acc ++ [r].
Proof.
  simpl. destruct (emit row) as [[r |] | e]; simpl; intros H;
    inversion H; subst; [right; exists r | left]; auto.
Qed.

Lemma iterrows_length (rows : list Reco.row) :
  forall acc out,
    iterrows rows acc = Ok out ->
    (List.length out <= List.length acc + List.length rows)%nat.
Proof.
  induction rows as [| row rows IH]; simpl; intros acc out H.
  - inversion H; subst. lia.
  - destruct (emit row) as [[r |] | e]; simpl in H; try discriminate;
      apply IH in H; try rewrite length_app in H; simpl in H; lia.
Qed.

(** ** Rules 1 and 2 *)

Lemma rule2_not_rule1 (row : Reco.row) :
  rule2 row = true -> rule1 row = false.
Proof.
  unfold rule1, rule2. intros H. apply andb_true_iff in H.
  destruct H as [H _]. apply andb_false_iff. left.
  destruct (Reco.demand_score row); simpl in *; [| reflexivity].
  b2p. lra.
Qed.

Lemma emit_rule (row : Reco.row) (k : rule) :
  fired row = Some k ->
  emit row = (r <- rule_build k row ;; Ok (Some r))
  /\ (is_zero (Reco.current_price row) = true ->
      emit row = Err ZeroDivisionError)
  /\ (is_zero (Reco.current_price row) = false ->
      exists r, emit row = Ok (Some r))
  /\ (forall r, emit row = Ok (Some r) ->
        Recommendation.action r = rule_action k
        /\ Recommendation.recommended_price r = round2 (rule_price k row)
        /\ Recommendation.reason r = Some (rule_reason k row)).
Proof.
  intros Hk. rewrite emit_fired, Hk. unfold rule_build.
  split; [reflexivity |]. split; [| split].
  - intros Hz. rewrite build_zero by exact Hz. reflexivity.
  - intros Hz. rewrite build_nonzero by exact Hz. eexists. reflexivity.
  - intros r H. destruct (is_zero (Reco.current_price row)) eqn:Hz.
    + rewrite build_zero in H by exact Hz. discriminate.
    + rewrite build_nonzero in H by exact Hz. inversion H. auto.
Qed.

(** C3: a row that meets the conditions of rule 1 and of rule 3 is decided
    by rule 1: the loop body builds rule 1's recommendation (it is emitted
    unless current_price is zero, where the percentage raises), every
    recommendation emitted for the row is an INCREASE with rule 1's price,
    and the loop appends at most one recommendation per row. *)
Theorem C3_first_match_wins (row : Reco.row) :
  rule1 row = true ->
  rule3 row = true ->
  fired row = Some R1
  /\ emit row = (r <- rule_build R1 row ;; Ok (Some r))
  /\ (is_zero (Reco.current_price row) = false ->
      exists r, emit row = Ok (Some r))
  /\ (forall r, emit row = Ok (Some r) ->
        Recommendation.action r = INCREASE
        /\ Recommendation.recommended_price r = round2 (price1 row)
        /\ Recommendation.reason r
           = Some (HighDemand (Reco.demand_score row)))
  /\ (forall row' acc out, iterrows [row'] acc = Ok out ->
        out = acc \/ exists r, out = acc ++ [r])
  /\ (forall rows out, iterrows rows [] = Ok out ->
        (List.length out <= List.length rows)%nat).
Proof.
  intros H1 _.
  assert (Hk : fired row = Some R1) by (unfold fired; rewrite H1; reflexivity).
  destruct (emit_rule _ _ Hk) as (He & _ & Hnz & Hr).
  repeat split; try assumption; try (apply Hr; assumption).
  - intros row' acc out H.
    destruct (iterrows_one _ _ _ H) as [[_ ->] | (r & _ & ->)];
      [left; reflexivity | right; exists r; reflexivity].
  - intros rows out H. apply iterrows_length in H. exact H.
Qed.

Lemma C3_witness :
  rule1 row_both = true /\ rule3 row_both = true
  /\ exists r, emit row_both = Ok (Some r)
       /\ Recommendation.action r = INCREASE
       /\ Recommendation.recommended_price r = Num 105.
Proof.
  split; [reflexivity |]. split; [reflexivity |].
  destruct (C3_first_match_wins row_both eq_refl eq_refl)
    as (_ & _ & _ & Hr & _).
  eexists. split; [vm_compute; reflexivity |].
  split; [| reflexivity].
  eapply Hr. vm_compute. reflexivity.
Defined.

(** C4: a row with demand_score > 7.5 and quantity_available > 50 takes
    rule 1: the recommendation built for it (emitted unless current_price is
    zero) has action INCREASE and recommended_price
    round(min(current_price * 1.05, max_price), 2).  With current_price=100,
    max_price=120, demand_score=8.0 and quantity_available=60, whatever the
    other fields, the result is INCREASE, 105.0, change_pct 5.0. *)
Theorem C4_rule1_increase :
  (forall row,
     fgt (Reco.demand_score row) (Num 7.5) = true ->
     fgt (Reco.quantity_available row) (Num 50) = true ->
     (is_zero (Reco.current_price row) = false ->
      exists r, emit row = Ok (Some r))
     /\ (forall r, emit row = Ok (Some r) ->
           Recommendation.action r = INCREASE
           /\ Recommendation.recommended_price r
              = round2 (py_min (fmul (Reco.current_price row) (Num 1.05))
                               (Reco.max_price row))))
  /\ (forall row,
        Reco.current_price row = Num 100 ->
        Reco.max_price row = Num 120 ->
        Reco.demand_score row = Num 8 ->
        Reco.quantity_available row = Num 60 ->
        exists r, emit row = Ok (Some r)
          /\ Recommendation.action r = INCREASE
          /\ Recommendation.recommended_price r = Num 105
          /\ Recommendation.change_pct r = Num 5).
Proof.
  split.
  - intros row Hd Hq.
    assert (Hk : fired row = Some R1)
      by (unfold fired, rule1; rewrite Hd, Hq; reflexivity).
    destruct (emit_rule _ _ Hk) as (_ & _ & Hnz & Hr).
    split; [exact Hnz |]. intros r H. destruct (Hr r H) as (Ha & Hp & _).
    split; assumption.
  - intros [pid name cur mn mx qty st ds cr avg]; simpl.
    intros -> -> -> ->. eexists. split; [vm_compute; reflexivity |].
    repeat split.
Qed.

Lemma C4_witness :
  exists r, emit row_high_demand = Ok (Some r)
    /\ Recommendation.action r = INCREASE
    /\ Recommendation.recommended_price r = Num 105
    /\ Recommendation.change_pct r = Num 5.
Proof.
  destruct C4_rule1_increase as [Hgen Hscn].
  destruct (Hgen row_high_demand eq_refl eq_refl) as [Hnz Hr].
  destruct (Hnz eq_refl) as [r He].
  destruct (Hr r He) as [Ha _].
  destruct (Hscn row_high_demand eq_refl eq_refl eq_refl eq_refl)
    as (r' & He' & _ & Hp & Hc).
  exists r. assert (E : r' = r) by congruence. subst r'. auto.
Defined.

(** C5: a row with demand_score < 5 and quantity_available > 100 cannot meet
    rule 1 and takes rule 2: the recommendation built for it (emitted unless
    current_price is zero) has action DECREASE and recommended_price
    round(max(current_price * 0.92, min_price), 2).  With current_price=50,
    min_price=40, demand_score=4.0 and quantity_available=150, whatever the
    other fields, the result is DECREASE, 46.0, change_pct -8.0. *)
Theorem C5_rule2_decrease :
  (forall row,
     flt (Reco.demand_score row) (Num 5) = true ->
     fgt (Reco.quantity_available row) (Num 100) = true ->
     rule1 row = false
     /\ (is_zero (Reco.current_price row) = false ->
         exists r, emit row = Ok (Some r))
     /\ (forall r, emit row = Ok (Some r) ->
           Recommendation.action r = DECREASE
           /\ Recommendation.recommended_price r
              = round2 (py_max (fmul (Reco.current_price row) (Num 0.92))
                               (Reco.min_price row))))
  /\ (forall row,
        Reco.current_price row = Num 50 ->
        Reco.min_price row = Num 40 ->
        Reco.demand_score row = Num 4 ->
        Reco.quantity_available row = Num 150 ->
        exists r, emit row = Ok (Some r)
          /\ Recommendation.action r = DECREASE
          /\ Recommendation.recommended_price r = Num 46
          /\ Recommendation.change_pct r = Num (-8)).
Proof.
  split.
  - intros row Hd Hq.
    assert (H2 : rule2 row = true)
      by (unfold rule2; rewrite Hd, Hq; reflexivity).
    pose proof (rule2_not_rule1 _ H2) as H1.
    assert (Hk : fired row = Some R2)
      by (unfold fired; rewrite H1, H2; reflexivity).
    destruct (emit_rule _ _ Hk) as (_ & _ & Hnz & Hr).
    split; [exact H1 |]. split; [exact Hnz |].
    intros r H. destruct (Hr r H) as (Ha & Hp & _). split; assumption.
  - intros [pid name cur mn mx qty st ds cr avg]; simpl.
    intros -> -> -> ->. eexists. split; [vm_compute; reflexivity |].
    repeat split.
Qed.

Lemma C5_witness :
  exists r, emit row_low_demand = Ok (Some r)
    /\ Recommendation.action r = DECREASE
    /\ Recommendation.recommended_price r = Num 46
    /\ Recommendation.change_pct r = Num (-8).
Proof.
  destruct C5_rule2_decrease as [Hgen Hscn].
  destruct (Hgen row_low_demand eq_refl eq_refl) as (_ & Hnz & Hr).
  destruct (Hnz eq_refl) as [r He].
  destruct (Hr r He) as [Ha _].
  destruct (Hscn row_low_demand eq_refl eq_refl eq_refl eq_refl)
    as (r' & He' & _ & Hp & Hc).
  exists r. assert (E : r' = r) by congruence. subst r'. auto.
Defined.

(** ** Sign of the percentage *)

Lemma pct_nonneg (c p : Q) : 0 < c -> c <= p -> 0 <= (p - c) / c * 100.
Proof.
  intros Hc Hp. unfold Qdiv.
  pose proof (Qinv_lt_0_compat _ Hc) as Hi.
  assert (0 <= (p - c) * / c) by nra. lra.
Qed.

Lemma pct_nonpos (c p : Q) : 0 < c -> p <= c -> (p - c) / c * 100 <= 0.
Proof.
  intros Hc Hp. unfold Qdiv.
  pose proof (Qinv_lt_0_compat _ Hc) as Hi.
  assert ((p - c) * / c <= 0) by nra. lra.
Qed.

(** Under the invariant and with a positive current price, an INCREASE rule
    does not lower the price and a DECREASE rule does not raise it. *)
Lemma rule_price_direction (row : Reco.row) (k : rule) :
  product_invariant row ->
  flt (Num 0) (Reco.current_price row) = true ->
  fired row = Some k ->
  match rule_action k with
  | INCREASE => fle (Reco.current_price row) (rule_price k row)
  | DECREASE => fle (rule_price k row) (Reco.current_price row)
  end = true.
Proof.
  intros [Hlo Hhi] Hpos Hk. apply fired_cond in Hk.
  destruct row as [pid name cur mn mx qty st ds cr avg].
  destruct k;
    cbv [rule_action rule_price price1 price2 price3 price4
         rule1 rule2 rule3 rule4
         Reco.min_price Reco.max_price Reco.current_price
         Reco.avg_competitor_price Reco.demand_score
         Reco.quantity_available Reco.stock_status] in *;
    [ clear Hk | clear Hk | destruct Hk as (_ & _ & Hk) | clear Hk ];
    destruct cur, mn, mx; try discriminate; try destruct avg;
    fl_cases; try discriminate; b2p; try lra.
Qed.

(** C6: for a row that satisfies the Product invariant and has
    current_price > 0, every emitted recommendation has change_pct >= 0 when
    its action is INCREASE and change_pct <= 0 when its action is
    DECREASE. *)
Theorem C6_change_pct_sign (row : Reco.row) (r : Recommendation.t) :
  product_invariant row ->
  flt (Num 0) (Reco.current_price row) = true ->
  emit row = Ok (Some r) ->
  (Recommendation.action r = INCREASE ->
   fge (Recommendation.change_pct r) (Num 0) = true)
  /\ (Recommendation.action r = DECREASE ->
      fle (Recommendation.change_pct r) (Num 0) = true).
Proof.
  intros Hinv Hpos He.
  destruct (emit_Some_inv _ _ He) as (k & Hk & Hz & Hb).
  pose proof (rule_price_direction _ _ Hinv Hpos Hk) as Hdir.
  unfold rule_build in Hb. rewrite build_nonzero in Hb by exact Hz.
  inversion Hb; subst r; clear Hb.
  cbn [Recommendation.action Recommendation.change_pct].
  destruct (Reco.current_price row) as [c |]; [| discriminate].
  destruct (rule_price k row) as [p |];
    [| destruct (rule_action k); discriminate].
  simpl in Hpos. apply Qlt_bool_iff in Hpos.
  unfold fge. split; intros Ha; rewrite Ha in Hdir; simpl in Hdir;
    apply Qle_bool_iff in Hdir.
  - apply round2_nonneg. simpl. apply Qle_bool_iff.
    apply pct_nonneg; assumption.
  - apply round2_nonpos. simpl. apply Qle_bool_iff.
    apply pct_nonpos; assumption.
Qed.

Lemma C6_witness :
  exists r, emit row_low_demand = Ok (Some r)
    /\ Recommendation.action r = DECREASE
    /\ fle (Recommendation.change_pct r) (Num 0) = true.
Proof.
  eexists. split; [vm_compute; reflexivity |].
  split; [reflexivity |].
  refine (proj2 (C6_change_pct_sign row_low_demand _ _ _ _) _);
    [split; reflexivity | reflexivity | vm_compute; reflexivity
    | reflexivity].
Defined.

(** ** Sorting *)

Section SortFacts.
Context {A : Type} (key : A -> fl).

Let num (x : A) : Prop := notna (key x) = true.
Let ge (a b : A) : Prop := fge (key a) (key b) = true.
Let ge_nan_last (a b : A) : Prop := isna (key b) = true \/ ge a b.

Lemma fge_total (a b : fl) :
  notna a = true -> notna b = true -> fge a b = false -> fge b a = true.
Proof.
  destruct a, b; simpl; try discriminate. intros _ _ H.
  unfold fge in *. simpl in *. b2p. lra.
Qed.

Lemma insert_desc_perm (x : A) (l : list A) :
  Permutation (x :: l) (insert_desc key x l).
Proof.
  induction l as [| y t IH]; simpl; [reflexivity |].
  destruct (fge (key x) (key y)); [reflexivity |].
  rewrite perm_swap. apply perm_skip. exact IH.
Qed.

Lemma sort_desc_perm (l : list A) : Permutation l (sort_desc key l).
Proof.
  induction l as [| x t IH]; simpl; [reflexivity |].
  rewrite <- insert_desc_perm. apply perm_skip. exact IH.
Qed.

Lemma insert_desc_hd (a x : A) (l : list A) :
  ge a x -> HdRel ge a l -> HdRel ge a (insert_desc key x l).
Proof.
  intros Hax Hl. destruct l as [| y t]; simpl.
  - constructor. exact Hax.
  - destruct (fge (key x) (key y)); constructor;
      [exact Hax | inversion Hl; assumption].
Qed.

Lemma insert_desc_sorted (x : A) (l : list A) :
  num x -> Forall num l -> Sorted ge l -> Sorted ge (insert_desc key x l).
Proof.
  intros Hx Hn Hs. induction l as [| y t IH]; simpl.
  - repeat constructor.
  - destruct (fge (key x) (key y)) eqn:E.
    + constructor; [exact Hs | constructor; exact E].
    + inversion Hn; subst. inversion Hs; subst.
      constructor; [apply IH; assumption |].
      apply insert_desc_hd; [| assumption].
      apply fge_total; assumption.
Qed.

Lemma sort_desc_sorted (l : list A) :
  Forall num l -> Sorted ge (sort_desc key l).
Proof.
  induction l as [| x t IH]; simpl; intros Hn; [constructor |].
  inversion Hn; subst. apply insert_desc_sorted; auto.
  eapply Permutation_Forall; [apply sort_desc_perm | assumption].
Qed.

Lemma Sorted_weaken (R S : A -> A -> Prop) (l : list A) :
  (forall a b, In a l -> In b l -> R a b -> S a b) ->
  Sorted R l -> Sorted S l.
Proof.
  intros HRS Hs. induction Hs as [| a l Hs IH Hhd]; [constructor |].
  constructor.
  - apply IH. intros x y Hx Hy. apply HRS; right; assumption.
  - destruct Hhd as [| b l' Hab]; constructor.
    apply HRS; [left; reflexivity | right; left; reflexivity | exact Hab].
Qed.

Lemma Sorted_all (R : A -> A -> Prop) (l : list A) :
  Forall (fun b => forall a, R a b) l -> Sorted R l.
Proof.
  induction 1 as [| b l Hb Hl IH]; [constructor |].
  constructor; [exact IH |].
  destruct Hl as [| c l' Hc _]; constructor. apply Hc.
Qed.

Lemma Sorted_app_all (R : A -> A -> Prop) (l1 l2 : list A) :
  Sorted R l1 -> Forall (fun b => forall a, R a b) l2 ->
  Sorted R (l1 ++ l2).
Proof.
  intros H1 H2. induction H1 as [| a l Hs IH Hhd]; simpl.
  - apply Sorted_all. exact H2.
  - constructor; [exact IH |].
    destruct Hhd as [| b l' Hab]; simpl; [| constructor; exact Hab].
    destruct H2 as [| c l2' Hc _]; constructor. apply Hc.
Qed.

Lemma sort_values_desc_perm (l : list A) :
  Permutation l (sort_values_desc key l).
Proof.
  unfold sort_values_desc. rewrite <- sort_desc_perm.
  induction l as [| x t IH]; simpl; [reflexivity |].
  unfold notna. destruct (isna (key x)); simpl.
  - apply Permutation_cons_app. exact IH.
  - apply perm_skip. exact IH.
Qed.

Lemma sort_values_desc_sorted (l : list A) :
  Sorted ge_nan_last (sort_values_desc key l).
Proof.
  unfold sort_values_desc. apply Sorted_app_all.
  - apply Sorted_weaken with (R := ge); [intros; right; assumption |].
    apply sort_desc_sorted. apply Forall_forall. intros x Hx.
    apply filter_In in Hx. apply Hx.
  - apply Forall_forall. intros b Hb a. left.
    apply filter_In in Hb. apply Hb.
Qed.

Lemma sort_values_desc_numbers (l : list A) :
  Forall num l -> Sorted ge (sort_values_desc key l).
Proof.
  intros Hn.
  apply Sorted_weaken with (R := ge_nan_last);
    [| apply sort_values_desc_sorted].
  intros a b _ Hb [Hna | Hge]; [| exact Hge]. exfalso.
  apply (Permutation_in _ (Permutation_sym (sort_values_desc_perm l))) in Hb.
  rewrite Forall_forall in Hn. specialize (Hn b Hb).
  unfold num, notna in Hn. rewrite Hna in Hn. discriminate.
Qed.

End SortFacts.

Lemma pricing_recommendations_inv (d : data) (out : list Recommendation.t) :
  pricing_recommendations d = Ok out ->
  exists recs, iterrows (reco d) [] = Ok recs
               /\ out = sort_values_desc Recommendation.change_pct recs.
Proof.
  unfold pricing_recommendations.
  destruct (iterrows (reco d) []) as [recs | e]; simpl; [| discriminate].
  intros H. exists recs. split; [reflexivity |].
  destruct recs; inversion H; reflexivity.
Qed.

(** C7 as stated fails when a change_pct is NaN: in [shop_missing_price]
    the first product has no current_price, rule 1 fires for it with a NaN
    price and a NaN change_pct, and the sort puts that record last, after
    the record with change_pct 5.0; 5.0 >= NaN does not hold. *)
Lemma C7_counterexample :
  exists out,
    pricing_recommendations shop_missing_price = Ok out
    /\ map Recommendation.change_pct out = [Num 5; NaN]
    /\ ~ descending out.
Proof.
  eexists. split; [vm_compute; reflexivity |]. split; [reflexivity |].
  unfold descending. intros H.
  apply Sorted_inv in H. destruct H as [_ H].
  apply HdRel_inv in H. discriminate H.
Qed.

(** C7 (amended): the printed list holds the recommendations of the loop,
    sorted by change_pct in descending order with the records whose
    change_pct is NaN last: of two adjacent records, the later one has a NaN
    change_pct or the earlier one's change_pct is greater than or equal to
    the later one's.  When no change_pct is NaN every adjacent pair is in
    descending order; rows giving 5.0, -3.0, 8.0 come out as 8.0, 5.0,
    -3.0. *)
Theorem C7_sorted_descending (d : data) (out : list Recommendation.t) :
  pricing_recommendations d = Ok out ->
  (exists recs, iterrows (reco d) [] = Ok recs /\ Permutation recs out)
  /\ descending_nan_last out
  /\ (Forall (fun r => notna (Recommendation.change_pct r) = true) out ->
      descending out)
  /\ (exists recs sorted,
        iterrows (reco shop_sorting) [] = Ok recs
        /\ map Recommendation.change_pct recs = [Num 5; Num (-3); Num 8]
        /\ pricing_recommendations shop_sorting = Ok sorted
        /\ map Recommendation.change_pct sorted = [Num 8; Num 5; Num (-3)]).
Proof.
  intros H. apply pricing_recommendations_inv in H.
  destruct H as (recs & Hrecs & ->).
  split; [| split; [| split]].
  - exists recs. split; [exact Hrecs | apply sort_values_desc_perm].
  - apply sort_values_desc_sorted.
  - intros Hn. apply sort_values_desc_numbers.
    eapply Permutation_Forall;
      [apply Permutation_sym, sort_values_desc_perm | exact Hn].
  - eexists. eexists. split; [vm_compute; reflexivity |].
    split; [reflexivity |]. split; [vm_compute; reflexivity | reflexivity].
Qed.

Lemma C7_witness :
  exists out, pricing_recommendations shop_sorting = Ok out
    /\ map Recommendation.change_pct out = [Num 8; Num 5; Num (-3)]
    /\ descending out.
Proof.
  eexists. split; [vm_compute; reflexivity |]. split; [reflexivity |].
  refine (proj1 (proj2 (proj2 (C7_sorted_descending shop_sorting _ _))) _);
    [vm_compute; reflexivity |].
  repeat constructor.
Defined.

(** ** Inventory alerts *)

Lemma insert_key_In (k x : Z) (ks : list Z) :
  In x (insert_key k ks) <-> x = k \/ In x ks.
Proof.
  induction ks as [| h t IH]; simpl; [intuition |].
  destruct (k <? h)%Z; [simpl; intuition |].
  destruct (k =? h)%Z eqn:E.
  - apply Z.eqb_eq in E. subst. simpl. intuition.
  - simpl. rewrite IH. intuition.
Qed.

Lemma group_keys_In (x : Z) (ks : list Z) : In x (group_keys ks) <-> In x ks.
Proof.
  induction ks as [| k t IH]; simpl; [reflexivity |].
  rewrite insert_key_In, IH. intuition.
Qed.

Lemma groupby_mean_key {A : Type} (key : A -> Z) (val : A -> fl)
    (rows : list A) (g : Z * fl) :
  In g (groupby_mean key val rows) -> exists r, In r rows /\ key r = fst g.
Proof.
  unfold groupby_mean. rewrite in_map_iff. intros (k & <- & Hk).
  rewrite group_keys_In, in_map_iff in Hk.
  destruct Hk as (r & E & Hr). exists r. auto.
Qed.

Lemma inv_analysis_In (d : data) (row : Alert.row) :
  In row (inv_analysis d) <->
  exists p i v,
    row = mk_alert (p, i, v)
    /\ In p (products d)
    /\ matched Products.product_id Inventory.product_id (inventory d) p i
    /\ matched Products.product_id fst (velocity d) p v.
Proof.
  unfold inv_analysis. rewrite in_map_iff. split.
  - intros ([[p i] v] & E & H).
    apply merge_left_In in H. destruct H as [H Hv].
    apply merge_left_In in H. destruct H as [Hp Hi].
    exists p, i, v. auto.
  - intros (p & i & v & E & Hp & Hi & Hv).
    exists (p, i, v). split; [auto |].
    apply merge_left_In. split; [| exact Hv].
    apply merge_left_In. split; assumption.
Qed.

Lemma days_of_stock_zero (qty avg : fl) :
  is_zero avg = true -> days_of_stock qty avg = Num 999.
Proof.
  intros Hz. unfold days_of_stock, np_div. rewrite Hz.
  destruct qty as [x |]; [| reflexivity].
  destruct (Qeq_zero x); [reflexivity |].
  destruct (Qlt_bool 0 x); reflexivity.
Qed.

Lemma days_of_stock_number (qty avg : fl) :
  exists q, days_of_stock qty avg = Num q.
Proof.
  unfold days_of_stock.
  destruct (replace_inf (Num 999) (np_div qty avg)) as [x |]; simpl;
    eexists; reflexivity.
Qed.

(** C8: in the table of [inventory_alerts], a product whose average daily
    sales are zero gets days_of_stock = 999, and so does a product with no
    demand row in the recent window (its average is filled with 0);
    days_of_stock is a number for every row, and the computation raises
    nothing. *)
Theorem C8_days_of_stock_sentinel (d : data) (row : Alert.row) :
  In row (inv_analysis d) ->
  (is_zero (Alert.avg_daily_sales row) = true ->
   Alert.days_of_stock row = Num 999)
  /\ ((forall dm, In dm (recent_demand d) ->
                  Demand.product_id dm <> Alert.product_id row) ->
      Alert.avg_daily_sales row = Num 0
      /\ Alert.days_of_stock row = Num 999)
  /\ (exists q, Alert.days_of_stock row = Num q).
Proof.
  intros Hin. apply inv_analysis_In in Hin.
  destruct Hin as (p & i & v & -> & _ & _ & Hv).
  cbn [mk_alert Alert.avg_daily_sales Alert.days_of_stock Alert.product_id].
  split; [apply days_of_stock_zero |].
  split; [| apply days_of_stock_number].
  intros Hno. destruct v as [g |].
  - exfalso. destruct Hv as [Hg Hk].
    apply groupby_mean_key in Hg. destruct Hg as (dm & Hdm & E).
    apply (Hno dm Hdm). congruence.
  - split; [reflexivity | apply days_of_stock_zero; reflexivity].
Qed.

Lemma C8_witness :
  let row := nth 1 (inv_analysis shop_stale_demand)
                 (mk_alert (product 0 "" NaN NaN NaN, None, None)) in
  Alert.product_name row = "gadget"%string
  /\ Alert.avg_daily_sales row = Num 0
  /\ Alert.days_of_stock row = Num 999.
Proof.
  intros row. split; [reflexivity |].
  assert (Hin : In row (inv_analysis shop_stale_demand))
    by (right; left; reflexivity).
  destruct (C8_days_of_stock_sentinel shop_stale_demand row Hin)
    as (Hz & _ & _).
  split; [reflexivity | apply Hz; reflexivity].
Defined.

(** ** Missing inventory *)

Lemma no_inventory_rules (row : Reco.row) :
  Reco.quantity_available row = NaN ->
  Reco.stock_status row = None ->
  rule1 row = false /\ rule2 row = false /\ rule4 row = false.
Proof.
  intros Hq Hs. unfold rule1, rule2, rule4. rewrite Hq, Hs.
  repeat split; try reflexivity; apply andb_false_r.
Qed.

(** C9: a row whose quantity_available and stock_status are missing, as the
    left join leaves them for a product without inventory row, meets none of
    rules 1, 2 and 4; no recommendation is emitted for it when rule 3's
    condition fails, and every recommendation emitted for it is rule 3's
    DECREASE, with a known competitor average and
    current_price > avg_competitor_price * 1.05. *)
Theorem C9_missing_inventory_only_rule3 :
  (forall d row,
     In row (reco d) ->
     (forall inv, In inv (inventory d) ->
                  Inventory.product_id inv <> Reco.product_id row) ->
     Reco.quantity_available row = NaN /\ Reco.stock_status row = None)
  /\ (forall row,
        Reco.quantity_available row = NaN ->
        Reco.stock_status row = None ->
        rule1 row = false /\ rule2 row = false /\ rule4 row = false
        /\ (rule3 row = false -> emit row = Ok None)
        /\ (forall r, emit row = Ok (Some r) ->
              fired row = Some R3
              /\ notna (Reco.avg_competitor_price row) = true
              /\ fgt (Reco.current_price row)
                     (fmul (Reco.avg_competitor_price row) (Num 1.05)) = true
              /\ Recommendation.action r = DECREASE
              /\ Recommendation.recommended_price r = round2 (price3 row))).
Proof.
  split.
  - intros d row Hin Hno. apply reco_In in Hin.
    destruct Hin as (p & [inv |] & dm & c & -> & _ & Hi & _);
      [| split; reflexivity].
    destruct Hi as [Hi Hk]. exfalso. exact (Hno inv Hi Hk).
  - intros row Hq Hs.
    destruct (no_inventory_rules _ Hq Hs) as (H1 & H2 & H4).
    split; [exact H1 |]. split; [exact H2 |]. split; [exact H4 |]. split.
    + intros H3. rewrite emit_fired. unfold fired.
      rewrite H1, H2, H3, H4. reflexivity.
    + intros r He. destruct (emit_Some_inv _ _ He) as (k & Hk & _).
      pose proof (fired_cond _ _ Hk) as Hc.
      destruct k; try (exfalso; intuition congruence).
      destruct Hc as (_ & _ & H3). unfold rule3 in H3.
      apply andb_true_iff in H3. destruct H3 as [Hna Hgt].
      destruct (emit_rule _ _ Hk) as (_ & _ & _ & Hr).
      destruct (Hr r He) as (Ha & Hp & _).
      repeat split; assumption.
Qed.

Lemma C9_witness :
  let row := nth 0 (reco shop_no_inventory) row_high_demand in
  Reco.quantity_available row = NaN
  /\ Reco.stock_status row = None
  /\ rule1 row = false
  /\ exists r, emit row = Ok (Some r)
       /\ Recommendation.action r = DECREASE
       /\ Recommendation.recommended_price r = Num 83.3.
Proof.
  intros row. destruct C9_missing_inventory_only_rule3 as [Hjoin Hrow].
  assert (Hin : In row (reco shop_no_inventory)) by (left; reflexivity).
  destruct (Hjoin shop_no_inventory row Hin) as [Hq Hs];
    [intros inv [] |].
  destruct (Hrow row Hq Hs) as (H1 & _ & _ & _ & Hr).
  repeat split; try assumption.
  eexists. split; [vm_compute; reflexivity |].
  split; [| reflexivity].
  eapply Hr. vm_compute. reflexivity.
Defined.

(** ** Rounded price, unrounded percentage *)

(** C10: in every emitted recommendation, recommended_price is the formula
    result [p] of the branch taken rounded to two decimals, while change_pct
    is round((p - current_price) / current_price * 100, 2) with the
    unrounded [p]; the two disagree for current_price = 33.33 under rule 1:
    p = 34.9965, recommended_price 35.0, change_pct 5.0, whereas the
    percentage recomputed from the rounded field is 5.01. *)
Theorem C10_change_pct_from_unrounded :
  (forall row r,
     emit row = Ok (Some r) ->
     let p := l_recommended_price (apply_rules row) in
     exists q,
       py_div (fsub p (Reco.current_price row)) (Reco.current_price row)
       = Ok q
       /\ Recommendation.current_price r = Reco.current_price row
       /\ Recommendation.recommended_price r = round2 p
       /\ Recommendation.change_pct r = round2 (fmul q (Num 100)))
  /\ (exists r,
        emit row_rounding = Ok (Some r)
        /\ l_recommended_price (apply_rules row_rounding) = Num (33.33 * 1.05)
        /\ Recommendation.recommended_price r = Num 35
        /\ Recommendation.change_pct r = Num 5
        /\ recomputed_pct r = Ok (Num 5.01)
        /\ recomputed_pct r <> Ok (Recommendation.change_pct r)).
Proof.
  split.
  - intros row r He p. subst p.
    destruct (emit_Some_inv _ _ He) as (k & Hk & Hz & Hb).
    rewrite apply_rules_fired, Hk. cbn [l_recommended_price].
    unfold rule_build in Hb. rewrite build_nonzero in Hb by exact Hz.
    inversion Hb; subst r; clear Hb. unfold py_div. rewrite Hz.
    eexists. repeat split.
  - eexists. split; [vm_compute; reflexivity |].
    split; [reflexivity |]. split; [reflexivity |].
    split; [reflexivity |]. split; [vm_compute; reflexivity |].
    vm_compute. discriminate.
Qed.

Lemma C10_witness :
  exists r q,
    emit row_rounding = Ok (Some r)
    /\ py_div (fsub (Num (33.33 * 1.05)) (Num 33.33)) (Num 33.33) = Ok q
    /\ Recommendation.change_pct r = round2 (fmul q (Num 100)).
Proof.
  destruct C10_change_pct_from_unrounded as [Hgen _].
  eexists.
  destruct (Hgen row_rounding _ ltac:(vm_compute; reflexivity))
    as (q & Hq & _ & _ & Hc).
  exists q. split; [vm_compute; reflexivity |].
  split; [exact Hq | exact Hc].
Defined.

(** * Further properties *)

(** ** Errors of the loop *)

Lemma error_unique (e : error) : e = ZeroDivisionError.
Proof. destruct e. reflexivity. Qed.

Lemma emit_Err_iff (row : Reco.row) :
  emit row = Err ZeroDivisionError <->
  fires row = true /\ is_zero (Reco.current_price row) = true.
Proof.
  rewrite emit_fired. unfold fires, rule_build.
  destruct (fired row) as [k |];
    [| split; [discriminate | intros [? _]; discriminate]].
  destruct (is_zero (Reco.current_price row)) eqn:Hz.
  - rewrite build_zero by exact Hz. simpl. tauto.
  - rewrite build_nonzero by exact Hz. simpl.
    split; [discriminate | intros [_ ?]; discriminate].
Qed.

Lemma emit_None_iff (row : Reco.row) :
  emit row = Ok None <-> fires row = false.
Proof.
  rewrite emit_fired. unfold fires, rule_build.
  destruct (fired row) as [k |]; [| tauto].
  destruct (is_zero (Reco.current_price row)) eqn:Hz.
  - rewrite build_zero by exact Hz. simpl. split; discriminate.
  - rewrite build_nonzero by exact Hz. simpl. split; discriminate.
Qed.

Lemma iterrows_Err (rows : list Reco.row) :
  forall acc,
    iterrows rows acc = Err ZeroDivisionError <->
    exists row, In row rows /\ fires row = true
                /\ is_zero (Reco.current_price row) = true.
Proof.
  induction rows as [| row rows IH]; intros acc; simpl.
  - split; [discriminate | intros (? & [] & _)].
  - destruct (emit row) as [o | e] eqn:E; simpl.
    + rewrite IH. split.
      * intros (r & Hr & H). exists r. split; [right; exact Hr | exact H].
      * intros (r & [<- | Hr] & Hf & Hz).
        -- exfalso. assert (emit row = Err ZeroDivisionError)
             by (apply emit_Err_iff; auto). congruence.
        -- exists r. auto.
    + rewrite (error_unique e) in *. split; [| reflexivity].
      intros _. exists row. split; [left; reflexivity |].
      apply emit_Err_iff. exact E.
Qed.

Lemma iterrows_Ok (rows : list Reco.row) :
  forall acc out,
    iterrows rows acc = Ok out ->
    exists new,
      out = acc ++ new
      /\ List.length new = List.length (filter fires rows)
      /\ map Recommendation.product_name new
         = map Reco.product_name (filter fires rows).
Proof.
  induction rows as [| row rows IH]; intros acc out; simpl.
  - intros H. inversion H. exists []. rewrite app_nil_r. auto.
  - destruct (emit row) as [[r |] | e] eqn:E; simpl; [| | discriminate].
    + intros H. apply IH in H. destruct H as (new & -> & Hl & Hn).
      assert (Hf : fires row = true).
      { destruct (fires row) eqn:F; [reflexivity |].
        apply emit_None_iff in F. congruence. }
      rewrite Hf. exists (r :: new). rewrite <- app_assoc. simpl.
      split; [reflexivity |]. split; [congruence |].
      f_equal; [| exact Hn].
      destruct (emit_Some_inv _ _ E) as (k & _ & Hz & Hb).
      unfold rule_build in Hb. rewrite build_nonzero in Hb by exact Hz.
      inversion Hb. reflexivity.
    + intros H. apply IH in H. destruct H as (new & -> & Hl & Hn).
      apply emit_None_iff in E. rewrite E. exists new. auto.
Qed.

(** X1: the run of [pricing_recommendations] fails, with
    ZeroDivisionError, exactly when some row of the merged frame takes a
    branch of the rule chain while its current_price is zero; the failure
    discards the recommendations already collected for the other rows. *)
Theorem X1_zero_price_aborts (d : data) :
  pricing_recommendations d = Err ZeroDivisionError <->
  exists row, In row (reco d) /\ fires row = true
              /\ is_zero (Reco.current_price row) = true.
Proof.
  rewrite <- (iterrows_Err (reco d) []). unfold pricing_recommendations.
  destruct (iterrows (reco d) []) as [recs | e]; simpl.
  - split; [destruct recs |]; discriminate.
  - rewrite (error_unique e). tauto.
Qed.

(** X2: when the run succeeds, the printed table has one recommendation for
    each row of the merged frame on which a rule fires, and none for the
    other rows: its product names are those of the firing rows, rearranged
    by the sort. *)
Theorem X2_one_recommendation_per_firing_row
    (d : data) (out : list Recommendation.t) :
  pricing_recommendations d = Ok out ->
  List.length out = List.length (filter fires (reco d))
  /\ Permutation (map Reco.product_name (filter fires (reco d)))
                 (map Recommendation.product_name out).
Proof.
  intros H. apply pricing_recommendations_inv in H.
  destruct H as (recs & Hrecs & ->).
  apply iterrows_Ok in Hrecs. destruct Hrecs as (new & E & Hl & Hn).
  simpl in E. subst new.
  pose proof (sort_values_desc_perm Recommendation.change_pct recs) as Hp.
  split.
  - rewrite <- Hl. symmetry. apply Permutation_length. exact Hp.
  - rewrite <- Hn. apply Permutation_map. exact Hp.
Qed.

Lemma X2_witness :
  exists out,
    pricing_recommendations shop_stale_demand = Ok out
    /\ List.length out = 2%nat
    /\ Permutation ["widget"%string; "gadget"%string]
                   (map Recommendation.product_name out).
Proof.
  eexists. split; [vm_compute; reflexivity |].
  exact (X2_one_recommendation_per_firing_row shop_stale_demand _
           ltac:(vm_compute; reflexivity)).
Defined.

(** ** Precedence of rule 3 over rule 4 *)

(** X3: a low-stock product with demand_score > 6 that is priced more than
    5% above its competitor average, and that rule 1 does not take, gets the
    DECREASE of rule 3, not the INCREASE of rule 4: rule 2 cannot apply to
    it, and rule 3 stands before rule 4 in the chain. *)
Theorem X3_rule3_before_rule4 (row : Reco.row) :
  rule4 row = true ->
  rule3 row = true ->
  rule1 row = false ->
  rule2 row = false
  /\ fired row = Some R3
  /\ (is_zero (Reco.current_price row) = false ->
      exists r, emit row = Ok (Some r))
  /\ (forall r, emit row = Ok (Some r) ->
        Recommendation.action r = DECREASE
        /\ Recommendation.recommended_price r = round2 (price3 row)).
Proof.
  intros H4 H3 H1.
  assert (H2 : rule2 row = false).
  { unfold rule4 in H4. apply andb_true_iff in H4. destruct H4 as [_ H4].
    unfold rule2. apply andb_false_iff. left.
    destruct (Reco.demand_score row); simpl in *; [| reflexivity].
    unfold fgt in H4. simpl in H4. b2p. lra. }
  assert (Hk : fired row = Some R3)
    by (unfold fired; rewrite H1, H2, H3; reflexivity).
  destruct (emit_rule _ _ Hk) as (_ & _ & Hnz & Hr).
  split; [exact H2 |]. split; [exact Hk |]. split; [exact Hnz |].
  intros r He. destruct (Hr r He) as (Ha & Hp & _). split; assumption.
Qed.

Lemma X3_witness :
  exists r, emit row_low_stock_dear = Ok (Some r)
    /\ Recommendation.action r = DECREASE
    /\ Recommendation.recommended_price r = Num 83.3.
Proof.
  destruct (X3_rule3_before_rule4 row_low_stock_dear eq_refl eq_refl eq_refl)
    as (_ & _ & Hnz & Hr).
  destruct (Hnz eq_refl) as [r He]. exists r.
  split; [exact He |]. destruct (Hr r He) as [Ha Hp].
  split; [exact Ha |]. rewrite Hp. reflexivity.
Defined.

(** ** Clamps without the invariant *)

Lemma rule_price_clamped (row : Reco.row) (k : rule) :
  prices_filled row ->
  fired row = Some k ->
  match rule_action k with
  | INCREASE => fle (rule_price k row) (Reco.max_price row)
  | DECREASE => fle (Reco.min_price row) (rule_price k row)
  end = true.
Proof.
  intros (Hc & Hlo & Hhi) Hk. apply fired_cond in Hk.
  destruct row as [pid name cur mn mx qty st ds cr avg].
  destruct k;
    cbv [rule_action rule_price price1 price2 price3 price4
         rule1 rule2 rule3 rule4
         Reco.min_price Reco.max_price Reco.current_price
         Reco.avg_competitor_price Reco.demand_score
         Reco.quantity_available Reco.stock_status] in *;
    [ clear Hk | clear Hk | destruct Hk as (_ & _ & Hk) | clear Hk ];
    destruct cur, mn, mx; try discriminate; try destruct avg;
    fl_cases; try discriminate; b2p; try lra.
Qed.

(** X4: whatever the relation between current_price and the bounds, as
    soon as the three price cells of a row are filled, an emitted INCREASE
    is at most max_price rounded to two decimals, and an emitted DECREASE is
    at least min_price rounded to two decimals; a bound with at most two
    decimals is respected as it stands. *)
Theorem X4_clamp_holds_without_invariant
    (row : Reco.row) (r : Recommendation.t) :
  prices_filled row ->
  emit row = Ok (Some r) ->
  (Recommendation.action r = INCREASE ->
   fle (Recommendation.recommended_price r)
       (round2 (Reco.max_price row)) = true
   /\ (decimals2 (Reco.max_price row) ->
       fle (Recommendation.recommended_price r) (Reco.max_price row) = true))
  /\ (Recommendation.action r = DECREASE ->
      fle (round2 (Reco.min_price row))
          (Recommendation.recommended_price r) = true
      /\ (decimals2 (Reco.min_price row) ->
          fle (Reco.min_price row) (Recommendation.recommended_price r)
          = true)).
Proof.
  intros Hf He.
  destruct (emit_Some_inv _ _ He) as (k & Hk & Hz & Hb).
  pose proof (rule_price_clamped _ _ Hf Hk) as Hc.
  unfold rule_build in Hb. rewrite build_nonzero in Hb by exact Hz.
  inversion Hb; subst r; clear Hb.
  cbn [Recommendation.action Recommendation.recommended_price].
  split; intros Ha; rewrite Ha in Hc; split.
  - apply (fround_to_le 100). exact Hc.
  - intros Hd. apply round2_upper; assumption.
  - apply (fround_to_le 100). exact Hc.
  - intros Hd. apply round2_lower; assumption.
Qed.

Lemma X4_witness :
  exists r, emit row_negative = Ok (Some r)
    /\ fle (Recommendation.recommended_price r)
           (Reco.max_price row_negative) = true.
Proof.
  eexists. split; [vm_compute; reflexivity |].
  refine (proj2 (proj1 (X4_clamp_holds_without_invariant row_negative _
                          _ _) _) _);
    [repeat split | vm_compute; reflexivity | reflexivity
    | vm_compute; reflexivity].
Defined.

(** ** Size of the change *)





(** ** Order of the table when the prices are filled *)

Lemma iterrows_In (rows : list Reco.row) :
  forall acc out r,
    iterrows rows acc = Ok out -> In r out ->
    In r acc \/ exists row, In row rows /\ emit row = Ok (Some r).
Proof.
  induction rows as [| row rows IH]; intros acc out r; simpl.
  - intros H. inversion H. auto.
  - destruct (emit row) as [[r' |] | e] eqn:E; simpl; [| | discriminate];
      intros H Hr; destruct (IH _ _ _ H Hr) as [Ha | (row' & Hin & He)].
    + apply in_app_or in Ha. destruct Ha as [Ha | [<- | []]]; [auto |].
      right. exists row. auto.
    + right. exists row'. auto.
    + auto.
    + right. exists row'. auto.
Qed.

Lemma emit_change_pct_number (row : Reco.row) (r : Recommendation.t) :
  prices_filled row ->
  emit row = Ok (Some r) ->
  notna (Recommendation.change_pct r) = true.
Proof.
  intros (Hc & Hlo & Hhi) He.
  destruct (emit_Some_inv _ _ He) as (k & Hk & Hz & Hb).
  unfold rule_build in Hb. rewrite build_nonzero in Hb by exact Hz.
  inversion Hb; subst r; clear Hb He Hz.
  cbn [Recommendation.change_pct]. apply fired_cond in Hk.
  destruct row as [pid name cur mn mx qty st ds cr avg].
  destruct k;
    cbv [rule_price price1 price2 price3 price4 rule1 rule2 rule3 rule4
         Reco.min_price Reco.max_price Reco.current_price
         Reco.avg_competitor_price Reco.demand_score
         Reco.quantity_available Reco.stock_status] in *;
    [ clear Hk | clear Hk | destruct Hk as (_ & _ & Hk) | clear Hk ];
    destruct cur, mn, mx; try discriminate; try destruct avg;
    fl_cases; try discriminate; reflexivity.
Qed.

(** X6: when every product has its current_price, min_price and max_price
    cells filled, no change_pct of the printed table is NaN, and the table
    is in descending order of change_pct throughout. *)
Theorem X6_filled_prices_sorted (d : data) (out : list Recommendation.t) :
  (forall p, In p (products d) -> product_filled p) ->
  pricing_recommendations d = Ok out ->
  Forall (fun r => notna (Recommendation.change_pct r) = true) out
  /\ descending out.
Proof.
  intros Hf H.
  assert (Hn : Forall (fun r => notna (Recommendation.change_pct r) = true)
                      out).
  { apply pricing_recommendations_inv in H.
    destruct H as (recs & Hrecs & ->).
    eapply Permutation_Forall; [apply sort_values_desc_perm |].
    apply Forall_forall. intros r Hr.
    destruct (iterrows_In _ _ _ _ Hrecs Hr) as [[] | (row & Hin & He)].
    apply (emit_change_pct_number row); [| exact He].
    apply reco_In in Hin.
    destruct Hin as (p & i & dm & c & -> & Hp & _).
    exact (Hf p Hp). }
  split; [exact Hn |].
  apply pricing_recommendations_inv in H.
  destruct H as (recs & Hrecs & ->).
  apply sort_values_desc_numbers.
  eapply Permutation_Forall;
    [apply Permutation_sym, sort_values_desc_perm | exact Hn].
Qed.

Lemma X6_witness :
  exists out, pricing_recommendations shop_sorting = Ok out
              /\ descending out.
Proof.
  eexists. split; [vm_compute; reflexivity |].
  refine (proj2 (X6_filled_prices_sorted shop_sorting _ _ _)).
  - intros p [<- | [<- | [<- | []]]]; repeat split.
  - vm_compute. reflexivity.
Defined.

(** ** Left merges keep the left table *)

Lemma matched_exists {L R : Type} (lkey : L -> Z) (rkey : R -> Z)
    (r : list R) (x : L) :
  exists o, matched lkey rkey r x o.
Proof.
  destruct (filter (fun y => (rkey y =? lkey x)%Z) r) as [| y ys] eqn:F.
  - exists None. intros y Hy Hk.
    assert (Hf : In y (filter (fun y => (rkey y =? lkey x)%Z) r))
      by (apply filter_In; split; [exact Hy | apply Z.eqb_eq; exact Hk]).
    rewrite F in Hf. exact Hf.
  - exists (Some y).
    assert (Hf : In y (filter (fun y => (rkey y =? lkey x)%Z) r))
      by (rewrite F; left; reflexivity).
    apply filter_In in Hf. destruct Hf as [Hy Hk].
    apply Z.eqb_eq in Hk. split; assumption.
Qed.

Lemma filter_key_unique {R : Type} (rkey : R -> Z) (k : Z) (r : list R) :
  NoDup (map rkey r) ->
  (List.length (filter (fun y => (rkey y =? k)%Z) r) <= 1)%nat.
Proof.
  induction r as [| y t IH]; simpl; intros Hnd; [lia |].
  inversion Hnd as [| ? ? Hnotin Hnd']; subst.
  destruct (rkey y =? k)%Z eqn:E; [| auto].
  apply Z.eqb_eq in E. simpl.
  assert (Hempty : filter (fun y => (rkey y =? k)%Z) t = []).
  { destruct (filter (fun y => (rkey y =? k)%Z) t) as [| z zs] eqn:F;
      [reflexivity |]. exfalso. apply Hnotin.
    assert (Hf : In z (filter (fun y => (rkey y =? k)%Z) t))
      by (rewrite F; left; reflexivity).
    apply filter_In in Hf. destruct Hf as [Hz Hk]. apply Z.eqb_eq in Hk.
    apply in_map_iff. exists z. split; [congruence | exact Hz]. }
  rewrite Hempty. simpl. lia.
Qed.

Lemma merge_left_unique {L R : Type} (lkey : L -> Z) (rkey : R -> Z)
    (l : list L) (r : list R) :
  NoDup (map rkey r) -> map fst (merge_left lkey rkey l r) = l.
Proof.
  intros Hnd. unfold merge_left.
  induction l as [| x t IH]; [reflexivity |].
  cbn [flat_map]. rewrite map_app, IH.
  pose proof (filter_key_unique rkey (lkey x) r Hnd) as Hlen.
  destruct (filter (fun y => (rkey y =? lkey x)%Z) r) as [| y [| z zs]];
    simpl in *; [reflexivity | reflexivity | lia].
Qed.

Lemma merge_left_length {L R : Type} (lkey : L -> Z) (rkey : R -> Z)
    (l : list L) (r : list R) :
  (List.length l <= List.length (merge_left lkey rkey l r))%nat.
Proof.
  unfold merge_left. induction l as [| x t IH]; [simpl; lia |].
  cbn [flat_map]. rewrite length_app.
  destruct (filter (fun y => (rkey y =? lkey x)%Z) r);
    cbn [List.length map] in *; lia.
Qed.

(** *** The groups of a group-by *)

Lemma insert_key_sorted (k : Z) (ks : list Z) :
  StronglySorted Z.lt ks -> StronglySorted Z.lt (insert_key k ks).
Proof.
  induction 1 as [| h t Hs IH Hh]; simpl; [repeat constructor |].
  destruct (k <? h)%Z eqn:E1.
  - apply Z.ltb_lt in E1. constructor; [constructor; assumption |].
    constructor; [exact E1 |].
    eapply Forall_impl; [| exact Hh]. intros; lia.
  - destruct (k =? h)%Z eqn:E2; [constructor; assumption |].
    apply Z.ltb_ge in E1. apply Z.eqb_neq in E2.
    constructor; [exact IH |].
    apply Forall_forall. intros x Hx. apply insert_key_In in Hx.
    destruct Hx as [-> | Hx]; [lia |].
    rewrite Forall_forall in Hh. auto.
Qed.

Lemma group_keys_sorted (ks : list Z) : StronglySorted Z.lt (group_keys ks).
Proof.
  induction ks as [| k t IH]; simpl; [constructor |].
  apply insert_key_sorted. exact IH.
Qed.

Lemma sorted_lt_NoDup (ks : list Z) : StronglySorted Z.lt ks -> NoDup ks.
Proof.
  induction 1 as [| h t Hs IH Hh]; constructor; [| exact IH].
  intros Hin. rewrite Forall_forall in Hh. specialize (Hh h Hin). lia.
Qed.

Lemma groupby_mean_keys {A : Type} (key : A -> Z) (val : A -> fl)
    (rows : list A) :
  map fst (groupby_mean key val rows) = group_keys (map key rows).
Proof.
  unfold groupby_mean. rewrite map_map. simpl. apply map_id.
Qed.

Lemma avg_comp_NoDup (d : data) : NoDup (map fst (avg_comp d)).
Proof.
  unfold avg_comp. rewrite groupby_mean_keys.
  apply sorted_lt_NoDup, group_keys_sorted.
Qed.

Lemma mk_reco_product (x : Products.row * option Inventory.row
                           * option Demand.row * option (Z * fl)) :
  let p := fst (fst (fst x)) in
  Reco.product_id (mk_reco x) = Products.product_id p
  /\ Reco.product_name (mk_reco x) = Products.product_name p
  /\ Reco.current_price (mk_reco x) = Products.current_price p
  /\ Reco.min_price (mk_reco x) = Products.min_price p
  /\ Reco.max_price (mk_reco x) = Products.max_price p.
Proof. destruct x as [[[p i] dm] c]. simpl. auto. Qed.

(** X7: the merged frame of [pricing_recommendations] keeps every product
    with its name and prices, whether or not the other tables know it, so it
    has at least as many rows as the products table; and when the inventory
    and the latest demand snapshots have at most one row per product, it has
    exactly the products, one row each and in the order of the products
    table (the competitor averages never duplicate a row). *)
Theorem X7_reco_keeps_products (d : data) :
  (forall p, In p (products d) ->
     exists row, In row (reco d)
       /\ Reco.product_id row = Products.product_id p
       /\ Reco.product_name row = Products.product_name p
       /\ Reco.current_price row = Products.current_price p
       /\ Reco.min_price row = Products.min_price p
       /\ Reco.max_price row = Products.max_price p)
  /\ (List.length (products d) <= List.length (reco d))%nat
  /\ (NoDup (map Inventory.product_id (inventory d)) ->
      NoDup (map Demand.product_id (latest_demand d)) ->
      map Reco.product_id (reco d)
      = map Products.product_id (products d)
      /\ map Reco.product_name (reco d)
         = map Products.product_name (products d)).
Proof.
  split; [| split].
  - intros p Hp.
    destruct (matched_exists Products.product_id Inventory.product_id
                (inventory d) p) as [i Hi].
    destruct (matched_exists Products.product_id Demand.product_id
                (latest_demand d) p) as [dm Hdm].
    destruct (matched_exists Products.product_id fst (avg_comp d) p)
      as [c Hc].
    exists (mk_reco (p, i, dm, c)). split.
    + apply reco_In. exists p, i, dm, c. auto.
    + apply (mk_reco_product (p, i, dm, c)).
  - unfold reco. rewrite length_map.
    eapply Nat.le_trans; [| apply merge_left_length].
    eapply Nat.le_trans; [| apply merge_left_length].
    apply merge_left_length.
  - intros Hi Hdm. unfold reco.
    set (m1 := merge_left Products.product_id Inventory.product_id
                          (products d) (inventory d)).
    set (m2 := merge_left (fun x => Products.product_id (fst x))
                          Demand.product_id m1 (latest_demand d)).
    set (m3 := merge_left (fun x => Products.product_id (fst (fst x)))
                          fst m2 (avg_comp d)).
    assert (E : map (fun x => fst (fst (fst x))) m3 = products d).
    { rewrite <- (merge_left_unique Products.product_id
                    Inventory.product_id (products d) (inventory d) Hi).
      fold m1.
      rewrite <- (merge_left_unique (fun x => Products.product_id (fst x))
                    Demand.product_id m1 (latest_demand d) Hdm).
      fold m2.
      rewrite <- (merge_left_unique
                    (fun x => Products.product_id (fst (fst x)))
                    fst m2 (avg_comp d) (avg_comp_NoDup d)).
      fold m3. rewrite !map_map. reflexivity. }
    rewrite <- E. rewrite !map_map. split; apply map_ext; intros x;
      apply (mk_reco_product x).
Qed.

Lemma X7_witness :
  map Reco.product_name (reco shop_sorting)
  = ["widget"%string; "gadget"%string; "gizmo"%string].
Proof.
  refine (proj2 (proj2 (proj2 (X7_reco_keeps_products shop_sorting)) _ _)).
  - repeat constructor; simpl; intuition discriminate.
  - repeat constructor; simpl; intuition discriminate.
Defined.

(** ** The latest date and the windows *)

Lemma max_date_from (l : list Demand.row) :
  forall a,
    exists m,
      fold_left
        (fun m r => match m with
                    | None => Some (Demand.date r)
                    | Some d => Some (Z.max d (Demand.date r))
                    end)
        l (Some a) = Some m
      /\ (a <= m)%Z
      /\ (forall r, In r l -> (Demand.date r <= m)%Z)
      /\ (m = a \/ exists r, In r l /\ Demand.date r = m).
Proof.
  induction l as [| x t IH]; intros a; simpl.
  - exists a. repeat split; [lia | intros r [] | auto].
  - destruct (IH (Z.max a (Demand.date x))) as (m & E & Ha & Hall & Hex).
    exists m. split; [exact E |]. split; [lia |]. split.
    + intros r [<- | Hr]; [lia | auto].
    + destruct Hex as [-> | (r & Hr & Hm)].
      * destruct (Z.max_spec a (Demand.date x)) as [[_ ->] | [_ ->]];
          [right; exists x; auto | left; reflexivity].
      * right. exists r. auto.
Qed.

Lemma max_date_spec (l : list Demand.row) :
  match max_date l with
  | None => l = []
  | Some m => (exists r, In r l /\ Demand.date r = m)
              /\ forall r, In r l -> (Demand.date r <= m)%Z
  end.
Proof.
  unfold max_date. destruct l as [| x t]; simpl; [reflexivity |].
  destruct (max_date_from t (Demand.date x)) as (m & -> & Ha & Hall & Hex).
  split.
  - destruct Hex as [-> | (r & Hr & Hm)];
      [exists x; auto | exists r; auto].
  - intros r [<- | Hr]; [exact Ha | auto].
Qed.

(** X8: the snapshots that [pricing_recommendations] joins are exactly the
    rows of the demand table that carry its greatest date, and the window of
    [inventory_alerts] holds exactly the rows at most 7 days older than that
    date; both are taken over the whole table, not per product, and neither
    is empty unless the demand table is. *)
Theorem X8_latest_and_recent_demand (d : data) :
  (forall r, In r (latest_demand d) <->
     In r (demand_metrics d)
     /\ forall r', In r' (demand_metrics d) ->
                   (Demand.date r' <= Demand.date r)%Z)
  /\ (forall r, In r (recent_demand d) <->
        In r (demand_metrics d)
        /\ forall r', In r' (demand_metrics d) ->
                      (Demand.date r' - 7 <= Demand.date r)%Z)
  /\ (forall r, In r (latest_demand d) -> In r (recent_demand d))
  /\ (latest_demand d = [] <-> demand_metrics d = []).
Proof.
  unfold latest_demand, recent_demand.
  pose proof (max_date_spec (demand_metrics d)) as Hm.
  destruct (max_date (demand_metrics d)) as [m |].
  - destruct Hm as [(x & Hx & Hxm) Hall].
    assert (H1 : forall r,
               In r (filter (fun r => (Demand.date r =? m)%Z)
                            (demand_metrics d)) <->
               In r (demand_metrics d)
               /\ forall r', In r' (demand_metrics d) ->
                             (Demand.date r' <= Demand.date r)%Z).
    { intros r. rewrite filter_In, Z.eqb_eq. split.
      - intros [Hr E]. split; [exact Hr |]. intros r' Hr'.
        specialize (Hall r' Hr'). lia.
      - intros [Hr Hmax]. split; [exact Hr |].
        specialize (Hall r Hr). specialize (Hmax x Hx). lia. }
    assert (H2 : forall r,
               In r (filter (fun r => (m - 7 <=? Demand.date r)%Z)
                            (demand_metrics d)) <->
               In r (demand_metrics d)
               /\ forall r', In r' (demand_metrics d) ->
                             (Demand.date r' - 7 <= Demand.date r)%Z).
    { intros r. rewrite filter_In, Z.leb_le. split.
      - intros [Hr E]. split; [exact Hr |]. intros r' Hr'.
        specialize (Hall r' Hr'). lia.
      - intros [Hr Hmax]. split; [exact Hr |].
        specialize (Hmax x Hx). lia. }
    split; [exact H1 |]. split; [exact H2 |]. split.
    + intros r Hr. apply H2. apply H1 in Hr. destruct Hr as [Hr Hmax].
      split; [exact Hr |]. intros r' Hr'. specialize (Hmax r' Hr'). lia.
    + split; intros E.
      * exfalso. assert (Hin : In x (filter (fun r => (Demand.date r =? m)%Z)
                                            (demand_metrics d)))
          by (apply filter_In; split; [exact Hx | apply Z.eqb_eq; exact Hxm]).
        rewrite E in Hin. exact Hin.
      * rewrite E in Hx. destruct Hx.
  - rewrite Hm. simpl. repeat split; try tauto; try (intros [[] _]).
Qed.

(** ** The two alert tables *)

(** X9: a product without inventory row is always listed under LOW STOCK:
    [fillna(0)] gives it quantity 0 and reorder point 0, and the test
    quantity_available <= reorder_point holds for 0 and 0. *)
Theorem X9_missing_inventory_is_low_stock (d : data) (p : Products.row) :
  In p (products d) ->
  (forall inv, In inv (inventory d) ->
               Inventory.product_id inv <> Products.product_id p) ->
  exists row,
    In row (fst (inventory_alerts d))
    /\ Alert.product_id row = Products.product_id p
    /\ Alert.product_name row = Products.product_name p
    /\ Alert.quantity_available row = Num 0
    /\ Alert.reorder_point row = Num 0.
Proof.
  intros Hp Hno.
  destruct (matched_exists Products.product_id fst (velocity d) p) as [v Hv].
  exists (mk_alert (p, None, v)). split; [| repeat split].
  unfold inventory_alerts. cbn [fst]. apply filter_In. split.
  - apply inv_analysis_In. exists p, None, v. repeat split; assumption.
  - reflexivity.
Qed.

Lemma X9_witness :
  exists row,
    In row (fst (inventory_alerts shop_no_inventory))
    /\ Alert.product_name row = "widget"%string
    /\ Alert.quantity_available row = Num 0.
Proof.
  destruct (X9_missing_inventory_is_low_stock shop_no_inventory
              (product 1 "widget" (Num 100) (Num 50) (Num 120))
              ltac:(left; reflexivity) ltac:(intros inv []))
    as (row & Hin & _ & Hn & Hq & _).
  exists row. auto.
Defined.

(** X10: every product whose average daily sales are zero, or that has no
    demand row in the last 7 days, is listed under SLOW MOVING, whatever its
    stock, also when nothing of it is left. *)
Theorem X10_no_sales_is_slow_moving (d : data) (row : Alert.row) :
  In row (inv_analysis d) ->
  (is_zero (Alert.avg_daily_sales row) = true
   \/ forall dm, In dm (recent_demand d) ->
                 Demand.product_id dm <> Alert.product_id row) ->
  In row (snd (inventory_alerts d)).
Proof.
  intros Hin Hz. unfold inventory_alerts. cbn [snd].
  apply filter_In. split; [exact Hin |].
  assert (E : Alert.days_of_stock row = Num 999).
  { apply inv_analysis_In in Hin.
    destruct Hin as (p & i & v & -> & _ & _ & Hv).
    cbn [mk_alert Alert.avg_daily_sales Alert.days_of_stock
         Alert.product_id] in *.
    apply days_of_stock_zero. destruct Hz as [Hz | Hno]; [exact Hz |].
    destruct v as [g |]; [| reflexivity].
    exfalso. destruct Hv as [Hg Hk].
    apply groupby_mean_key in Hg. destruct Hg as (dm & Hdm & E).
    apply (Hno dm Hdm). congruence. }
  rewrite E. reflexivity.
Qed.

Lemma X10_witness :
  exists row,
    In row (snd (inventory_alerts shop_stale_demand))
    /\ Alert.product_name row = "gadget"%string
    /\ Alert.quantity_available row = Num 10.
Proof.
  exists (nth 1 (inv_analysis shop_stale_demand)
              (mk_alert (product 0 "" NaN NaN NaN, None, None))).
  split; [| split; reflexivity].
  apply X10_no_sales_is_slow_moving.
  - right. left. reflexivity.
  - left. reflexivity.
Defined.

(** ** High demand products *)

Lemma high_demand_products_In (d : data) (row : HighDemandProducts.row) :
  In row (high_demand_products d) <->
  fgt (HighDemandProducts.demand_score row) (Num 7.5) = true
  /\ exists p dm i,
       row = mk_high_demand (p, dm, i)
       /\ In p (products d)
       /\ matched Products.product_id RecentDemand.product_id
                  (recent3_means d) p dm
       /\ matched Products.product_id Inventory.product_id
                  (inventory d) p i.
Proof.
  unfold high_demand_products.
  set (m2 := merge_left _ _ _ _).
  set (hd := filter _ _).
  assert (Hperm : Permutation hd
            (sort_values_desc HighDemandProducts.demand_score hd))
    by apply sort_values_desc_perm.
  split.
  - intros H. apply (Permutation_in _ (Permutation_sym Hperm)) in H.
    apply filter_In in H. destruct H as [H Hgt]. split; [exact Hgt |].
    apply in_map_iff in H. destruct H as ([[p dm] i] & E & H).
    apply merge_left_In in H. destruct H as [H Hi].
    apply merge_left_In in H. destruct H as [Hp Hdm].
    exists p, dm, i. auto.
  - intros (Hgt & p & dm & i & E & Hp & Hdm & Hi).
    apply (Permutation_in _ Hperm). apply filter_In. split; [| exact Hgt].
    apply in_map_iff. exists (p, dm, i). split; [auto |].
    apply merge_left_In. split; [| exact Hi].
    apply merge_left_In. split; assumption.
Qed.

(** X11: every row of the high-demand table has a mean demand_score above
    7.5 over the last three days, and the table is in descending order of
    that score throughout: the filter has removed the products whose score
    is missing, so no NaN takes part in the sort. *)
Theorem X11_high_demand_sorted (d : data) :
  Forall (fun r => fgt (HighDemandProducts.demand_score r) (Num 7.5) = true)
         (high_demand_products d)
  /\ Sorted (fun a b => fge (HighDemandProducts.demand_score a)
                            (HighDemandProducts.demand_score b) = true)
            (high_demand_products d).
Proof.
  split.
  - apply Forall_forall. intros r Hr.
    apply high_demand_products_In in Hr. apply Hr.
  - unfold high_demand_products. apply sort_values_desc_numbers.
    apply Forall_forall. intros r Hr. apply filter_In in Hr.
    destruct Hr as [_ Hgt].
    destruct (HighDemandProducts.demand_score r); [reflexivity |].
    discriminate.
Qed.

Lemma row_min_le_r (a m : fl) :
  notna m = true -> fle (row_min a m) m = true.
Proof.
  destruct a as [x |], m as [y |]; simpl; try discriminate; intros _.
  - destruct (Qlt_bool y x) eqn:E; simpl; b2p; lra.
  - b2p. lra.
Qed.

(** X12: in the high-demand table the recommended price never exceeds
    max_price when that cell is filled, with any number of decimals: the
    price is rounded first and clamped afterwards; with a missing
    current_price the recommended price is max_price itself. *)
Theorem X12_high_demand_price_capped
    (d : data) (row : HighDemandProducts.row) :
  In row (high_demand_products d) ->
  (notna (HighDemandProducts.max_price row) = true ->
   fle (HighDemandProducts.recommended_price row)
       (HighDemandProducts.max_price row) = true)
  /\ (HighDemandProducts.current_price row = NaN ->
      HighDemandProducts.recommended_price row
      = HighDemandProducts.max_price row).
Proof.
  intros H. apply high_demand_products_In in H.
  destruct H as (_ & p & dm & i & -> & _).
  cbn [mk_high_demand HighDemandProducts.max_price
       HighDemandProducts.recommended_price
       HighDemandProducts.current_price].
  split.
  - apply row_min_le_r.
  - intros ->. reflexivity.
Qed.

Lemma X12_witness :
  exists row,
    In row (high_demand_products shop_week)
    /\ HighDemandProducts.product_name row = "widget"%string
    /\ fle (HighDemandProducts.recommended_price row) (Num 104.5) = true.
Proof.
  exists (nth 0 (high_demand_products shop_week)
              (mk_high_demand (product 0 "" NaN NaN NaN, None, None))).
  assert (Hin : In (nth 0 (high_demand_products shop_week)
                      (mk_high_demand (product 0 "" NaN NaN NaN, None, None)))
                   (high_demand_products shop_week))
    by (left; reflexivity).
  split; [exact Hin |]. split; [reflexivity |].
  apply (proj1 (X12_high_demand_price_capped shop_week _ Hin)).
  reflexivity.
Defined.



(** ** Competitor comparison *)

Lemma competitor_comparison_In (d : data) (row : Comparison.row) :
  In row (competitor_comparison d) <->
  exists p s,
    row = mk_comparison (p, s)
    /\ In p (products d)
    /\ matched Products.product_id CompetitorStats.product_id
               (competitor_stats d) p s.
Proof.
  unfold competitor_comparison. rewrite in_map_iff. split.
  - intros ([p s] & E & H). apply merge_left_In in H.
    exists p, s. destruct H. auto.
  - intros (p & s & E & Hp & Hs). exists (p, s). split; [auto |].
    apply merge_left_In. auto.
Qed.

Lemma competitor_stats_In (d : data) (s : CompetitorStats.row) :
  In s (competitor_stats d) ->
  let g := map CompetitorPrices.competitor_price
               (filter (fun r => (CompetitorPrices.product_id r
                                  =? CompetitorStats.product_id s)%Z)
                       (competitor_prices d)) in
  (exists c, In c (competitor_prices d)
             /\ CompetitorPrices.product_id c = CompetitorStats.product_id s)
  /\ CompetitorStats.avg_competitor_price s = mean g
  /\ CompetitorStats.min_competitor_price s = group_min g
  /\ CompetitorStats.max_competitor_price s = group_max g
  /\ CompetitorStats.competitor_count s = group_count g.
Proof.
  unfold competitor_stats. rewrite in_map_iff.
  intros (k & <- & Hk). simpl. rewrite group_keys_In, in_map_iff in Hk.
  destruct Hk as (c & E & Hc). split; [exists c; auto | auto].
Qed.

(** X14: a product for which no competitor price is recorded has no
    competitor average in the comparison, and it is labelled 'Equal': its
    gap percentage is NaN, which is neither below nor above zero.  The same
    label is given whenever the average or the current price is missing. *)
Theorem X14_no_competitor_is_equal (d : data) (row : Comparison.row) :
  In row (competitor_comparison d) ->
  ((forall c, In c (competitor_prices d) ->
              CompetitorPrices.product_id c <> Comparison.product_id row) ->
   Comparison.avg_competitor_price row = NaN)
  /\ (Comparison.avg_competitor_price row = NaN
      \/ Comparison.current_price row = NaN ->
      Comparison.price_gap_pct row = Fin NaN
      /\ Comparison.position row = Equal).
Proof.
  intros H. apply competitor_comparison_In in H.
  destruct H as (p & s & -> & _ & Hs).
  cbn [mk_comparison Comparison.avg_competitor_price
       Comparison.current_price Comparison.price_gap_pct
       Comparison.position Comparison.product_id].
  split.
  - intros Hno. destruct s as [s |]; [| reflexivity].
    exfalso. destruct Hs as [Hs Hk].
    apply competitor_stats_In in Hs. destruct Hs as ((c & Hc & E) & _).
    apply (Hno c Hc). congruence.
  - intros [-> | ->];
      [destruct (Products.current_price p)
      | destruct (col _ s) as [a |]; [unfold np_div; simpl;
                                      destruct (Qeq_zero a) |]];
      split; reflexivity.
Qed.

Lemma X14_witness :
  let row := nth 1 (competitor_comparison shop_week)
                 (mk_comparison (product 0 "" NaN NaN NaN, None)) in
  Comparison.product_name row = "gadget"%string
  /\ Comparison.avg_competitor_price row = NaN
  /\ Comparison.position row = Equal.
Proof.
  intros row. split; [reflexivity |].
  assert (Hin : In row (competitor_comparison shop_week))
    by (right; left; reflexivity).
  destruct (X14_no_competitor_is_equal shop_week row Hin) as [Ha Hp].
  assert (E : Comparison.avg_competitor_price row = NaN).
  { apply Ha. intros c [<- | [<- | []]]; discriminate. }
  split; [exact E | apply Hp; left; exact E].
Defined.

(** *** Mean, minimum and maximum of a group *)








Lemma Qround_to_zero (s : positive) : Qround_to s 0 == 0.
Proof.
  unfold Qround_to. rewrite Qred_correct.
  rewrite (round_half_even_comp _ (inject_Z 0)) by ring.
  rewrite round_half_even_Z. reflexivity.
Qed.

Lemma Qround_to_neg (s : positive) (x : Q) : Qround_to s x < 0 -> x < 0.
Proof.
  intros H. destruct (Qlt_le_dec x 0) as [Hx | Hx]; [exact Hx |].
  apply (Qround_to_le s) in Hx.
  pose proof (Qround_to_zero s) as E.
  lra.
Qed.

Lemma Qround_to_pos (s : positive) (x : Q) : 0 < Qround_to s x -> 0 < x.
Proof.
  intros H. destruct (Qlt_le_dec 0 x) as [Hx | Hx]; [exact Hx |].
  apply (Qround_to_le s) in Hx.
  pose proof (Qround_to_zero s) as E.
  lra.
Qed.

Lemma div100_sign (g a : Q) :
  0 < a -> (g / a * 100 < 0 -> g < 0) /\ (0 < g / a * 100 -> 0 < g).
Proof.
  intros Ha. pose proof (Qinv_lt_0_compat _ Ha) as Hi. unfold Qdiv.
  split; intros H.
  - destruct (Qlt_le_dec g 0) as [Hg | Hg]; [exact Hg |].
    assert (0 <= g * / a) by nra. lra.
  - destruct (Qlt_le_dec 0 g) as [Hg | Hg]; [exact Hg |].
    assert (g * / a <= 0) by nra. lra.
Qed.

(** X16: against a positive competitor average, the label 'Higher' is only
    given to a product whose current price is above the average, and
    'Lower' only to one whose current price is below it. *)
Theorem X16_position_sign (d : data) (row : Comparison.row) :
  In row (competitor_comparison d) ->
  flt (Num 0) (Comparison.avg_competitor_price row) = true ->
  (Comparison.position row = Higher ->
   fgt (Comparison.current_price row)
       (Comparison.avg_competitor_price row) = true)
  /\ (Comparison.position row = Lower ->
      flt (Comparison.current_price row)
          (Comparison.avg_competitor_price row) = true).
Proof.
  intros H Hpos. apply competitor_comparison_In in H.
  destruct H as (p & s & -> & _ & _).
  cbn [mk_comparison Comparison.avg_competitor_price
       Comparison.current_price Comparison.position] in *.
  destruct (col CompetitorStats.avg_competitor_price s) as [a |];
    [| discriminate].
  simpl in Hpos. apply Qlt_bool_iff in Hpos.
  destruct (Products.current_price p) as [c |];
    [| split; intros E; unfold np_div in E; simpl in E;
       destruct (Qeq_zero a); discriminate].
  unfold np_div, is_zero.
  replace (Qeq_zero a) with false
    by (symmetry; apply Qeq_zero_false; lra).
  cbn [fsub round2 fround_to fdiv_nz times100 qround2 fmul].
  unfold position_of, qneg, qpos, fgt. cbn [flt].
  set (g := Qround_to 100 (c - a)).
  destruct (div100_sign g a Hpos) as [Hneg Hposi].
  split; intros E.
  - destruct (Qlt_bool (Qround_to 100 (g / a * 100)) 0) eqn:E1;
      [discriminate |].
    destruct (Qlt_bool 0 (Qround_to 100 (g / a * 100))) eqn:E2;
      [| discriminate].
    b2p. apply Qround_to_pos in E2. apply Hposi in E2.
    unfold g in E2. apply Qround_to_pos in E2. lra.
  - destruct (Qlt_bool (Qround_to 100 (g / a * 100)) 0) eqn:E1;
      [| destruct (Qlt_bool 0 (Qround_to 100 (g / a * 100)));
         discriminate].
    b2p. apply Qround_to_neg in E1. apply Hneg in E1.
    unfold g in E1. apply Qround_to_neg in E1. lra.
Qed.

Lemma X16_witness :
  let row := nth 1 (competitor_comparison shop_stale_demand)
                 (mk_comparison (product 0 "" NaN NaN NaN, None)) in
  Comparison.position row = Higher
  /\ fgt (Comparison.current_price row)
         (Comparison.avg_competitor_price row) = true.
Proof.
  intros row. split; [reflexivity |].
  apply (X16_position_sign shop_stale_demand row);
    [right; left; reflexivity | reflexivity | reflexivity].
Defined.

(** ** Revenue analysis *)

Lemma revenue_table_In (cat : list Catalog.row) (items : list OrderItems.row)
    (row : Revenue.row) :
  In row (revenue_table cat items) <->
  exists c s,
    row = mk_revenue (c, s)
    /\ In c cat
    /\ matched (fun c => Products.product_id (Catalog.product c))
               Sales.product_id (sales items) c s.
Proof.
  unfold revenue_table.
  set (l := map mk_revenue _).
  assert (Hperm : Permutation l (sort_values_desc Revenue.total_revenue l))
    by apply sort_values_desc_perm.
  split.
  - intros H. apply (Permutation_in _ (Permutation_sym Hperm)) in H.
    apply in_map_iff in H. destruct H as ([c s] & E & H).
    apply merge_left_In in H. destruct H. exists c, s. auto.
  - intros (c & s & E & Hc & Hs). apply (Permutation_in _ Hperm).
    apply in_map_iff. exists (c, s). split; [auto |].
    apply merge_left_In. auto.
Qed.

Lemma fillna_number (v : Q) (x : fl) : notna (fillna (Num v) x) = true.
Proof. destruct x; reflexivity. Qed.

Lemma sales_In (items : list OrderItems.row) (s : Sales.row) :
  In s (sales items) ->
  exists i, In i items
            /\ OrderItems.product_id i = Sales.product_id s.
Proof.
  unfold sales. rewrite in_map_iff. intros (k & <- & Hk). simpl.
  rewrite group_keys_In, in_map_iff in Hk.
  destruct Hk as (i & E & Hi). exists i. auto.
Qed.

(** X17: the revenue table is in descending order of total_revenue
    throughout, since [fillna(0)] leaves no missing revenue; a product
    without order item is shown with 0 units, 0 revenue, 0 cost and 0
    profit, and its margin, 0/0, stays NaN: no sentinel replaces it. *)
Theorem X17_revenue_table_order_and_no_orders
    (cat : list Catalog.row) (items : list OrderItems.row) :
  Sorted (fun a b => fge (Revenue.total_revenue a)
                         (Revenue.total_revenue b) = true)
         (revenue_table cat items)
  /\ (forall c,
        In c cat ->
        (forall i, In i items ->
           OrderItems.product_id i
           <> Products.product_id (Catalog.product c)) ->
        exists row,
          In row (revenue_table cat items)
          /\ Revenue.product_name row
             = Products.product_name (Catalog.product c)
          /\ Revenue.units_sold row = Num 0
          /\ Revenue.total_revenue row = Num 0
          /\ feq (Revenue.total_cost row) (Num 0)
          /\ feq (Revenue.gross_profit row) (Num 0)
          /\ Revenue.profit_margin_pct row = Fin NaN).
Proof.
  split.
  - unfold revenue_table. apply sort_values_desc_numbers.
    apply Forall_forall. intros r Hr. apply in_map_iff in Hr.
    destruct Hr as ([c s] & <- & _). apply fillna_number.
  - intros c Hc Hno. exists (mk_revenue (c, None)). split.
    + apply revenue_table_In. exists c, None. split; [reflexivity |].
      split; [exact Hc |]. intros s Hs Hk.
      apply sales_In in Hs. destruct Hs as (i & Hi & E).
      apply (Hno i Hi). congruence.
    + cbn [mk_revenue Revenue.product_name Revenue.units_sold
           Revenue.total_revenue Revenue.total_cost Revenue.gross_profit
           Revenue.profit_margin_pct col fillna isna].
      destruct (fillna (Num 0) (Catalog.base_cost c)) as [b |] eqn:E.
      * cbn [fmul fsub feq]. unfold np_div. cbn [is_zero].
        replace (Qeq_zero 0) with true by reflexivity.
        replace (Qeq_zero (0 - b * 0)) with true
          by (symmetry; apply Qeq_zero_true; ring).
        repeat split; ring.
      * pose proof (fillna_number 0 (Catalog.base_cost c)) as H.
        rewrite E in H. discriminate.
Qed.

Lemma X17_witness :
  exists row,
    In row (revenue_table sample_catalog sample_items)
    /\ Revenue.product_name row = "gizmo"%string
    /\ Revenue.total_revenue row = Num 0
    /\ Revenue.profit_margin_pct row = Fin NaN.
Proof.
  destruct (X17_revenue_table_order_and_no_orders sample_catalog
              sample_items) as [_ H].
  destruct (H (nth 2 sample_catalog
                   {| Catalog.product := product 0 "" NaN NaN NaN;
                      Catalog.base_price := NaN; Catalog.base_cost := NaN |}))
    as (row & Hin & Hn & _ & Hr & _ & _ & Hm).
  - right. right. left. reflexivity.
  - intros i [<- | [<- | [<- | [<- | []]]]]; discriminate.
  - exists row. auto.
Defined.

(** *** Sums *)

Lemma fold_left_Qplus (l : list Q) :
  forall a, fold_left Qplus l a == a + Qsum l.
Proof.
  induction l as [| x t IH]; intros a; simpl.
  - ring.
  - rewrite IH. unfold Qsum. ring.
Qed.

Lemma Qsum_app (l1 l2 : list Q) : Qsum (l1 ++ l2) == Qsum l1 + Qsum l2.
Proof.
  induction l1 as [| x t IH]; simpl; [ring |]. rewrite IH. ring.
Qed.

Lemma Qsum_perm (l1 l2 : list Q) :
  Permutation l1 l2 -> Qsum l1 == Qsum l2.
Proof.
  induction 1; simpl; try lra.
Qed.

Lemma numbers_app (l1 l2 : list fl) :
  numbers (l1 ++ l2) = numbers l1 ++ numbers l2.
Proof.
  induction l1 as [| [x |] t IH]; simpl; [reflexivity | | exact IH].
  rewrite IH. reflexivity.
Qed.

Lemma numbers_perm (l1 l2 : list fl) :
  Permutation l1 l2 -> Permutation (numbers l1) (numbers l2).
Proof.
  induction 1 as [| x l l' _ IH | x y l | l l' l'' _ IH1 _ IH2].
  - constructor.
  - destruct x; simpl; [constructor |]; exact IH.
  - destruct x, y; simpl; try reflexivity. constructor.
  - etransitivity; eassumption.
Qed.

Lemma group_sum_value (xs : list fl) :
  feq (group_sum xs) (Num (Qsum (numbers xs))).
Proof.
  unfold group_sum. simpl. rewrite Qred_correct, fold_left_Qplus. ring.
Qed.

Lemma Qsum_numbers_map {A : Type} (f : A -> fl) (g : A -> Q) (l : list A) :
  (forall x, In x l -> feq (f x) (Num (g x))) ->
  Qsum (numbers (map f l)) == Qsum (map g l).
Proof.
  induction l as [| x t IH]; intros H; simpl; [reflexivity |].
  pose proof (H x (or_introl eq_refl)) as Hx.
  assert (IH' : Qsum (numbers (map f t)) == Qsum (map g t))
    by (apply IH; intros y Hy; apply H; right; exact Hy).
  destruct (f x) as [q |]; simpl in *; [| destruct Hx]. lra.
Qed.

(** The revenue of the order items of one product. *)
Lemma sales_revenue (items : list OrderItems.row) (k : Z)
    (s : option Sales.row) :
  match s with
  | Some y => In y (sales items) /\ Sales.product_id y = k
  | None => forall y, In y (sales items) -> Sales.product_id y <> k
  end ->
  feq (fillna (Num 0) (col Sales.total_revenue s))
      (Num (Qsum (numbers
                    (map OrderItems.total_price
                         (filter (fun r => (OrderItems.product_id r =? k)%Z)
                                 items))))).
Proof.
  destruct s as [y |]; simpl.
  - intros [Hy <-]. unfold sales in Hy. apply in_map_iff in Hy.
    destruct Hy as (k & <- & _). simpl.
    rewrite Qred_correct, fold_left_Qplus. ring.
  - intros Hno.
    destruct (filter (fun r => (OrderItems.product_id r =? k)%Z) items)
      as [| i t] eqn:F; [simpl; reflexivity |].
    exfalso.
    assert (Hi : In i (filter (fun r => (OrderItems.product_id r =? k)%Z)
                              items)) by (rewrite F; left; reflexivity).
    apply filter_In in Hi. destruct Hi as [Hi Hk]. apply Z.eqb_eq in Hk.
    set (y := {| Sales.product_id := k;
                 Sales.units_sold :=
                   group_sum (map OrderItems.quantity
                     (filter (fun r => (OrderItems.product_id r =? k)%Z)
                             items));
                 Sales.total_revenue :=
                   group_sum (map OrderItems.total_price
                     (filter (fun r => (OrderItems.product_id r =? k)%Z)
                             items));
                 Sales.order_count :=
                   count_filled (map OrderItems.order_id
                     (filter (fun r => (OrderItems.product_id r =? k)%Z)
                             items)) |}).
    apply (Hno y); [| reflexivity].
    unfold sales. apply in_map_iff. exists k. split; [reflexivity |].
    apply group_keys_In. apply in_map_iff. exists i. auto.
Qed.

Lemma Qsum_indicator (cat : list Catalog.row) (k : Z) (v : Q) :
  NoDup (map (fun c => Products.product_id (Catalog.product c)) cat) ->
  Qsum (map (fun c => if (k =? Products.product_id (Catalog.product c))%Z
                      then v else 0) cat)
  == if existsb (fun c => (Products.product_id (Catalog.product c) =? k)%Z)
                cat
     then v else 0.
Proof.
  induction cat as [| c t IH]; simpl; intros Hnd; [reflexivity |].
  inversion Hnd as [| ? ? Hnotin Hnd']; subst. rewrite (IH Hnd').
  rewrite (Z.eqb_sym k).
  destruct (Products.product_id (Catalog.product c) =? k)%Z eqn:E; simpl.
  - apply Z.eqb_eq in E.
    destruct (existsb _ t) eqn:Ex; [| ring]. exfalso.
    apply existsb_exists in Ex. destruct Ex as (c' & Hc' & E').
    apply Z.eqb_eq in E'. apply Hnotin. apply in_map_iff.
    exists c'. split; [congruence | exact Hc'].
  - ring.
Qed.

Lemma Qsum_map_plus {A : Type} (f g : A -> Q) (l : list A) :
  Qsum (map (fun x => f x + g x) l) == Qsum (map f l) + Qsum (map g l).
Proof.
  induction l as [| x t IH]; simpl; [ring |]. rewrite IH. ring.
Qed.

Lemma Qsum_map_ext {A : Type} (f g : A -> Q) (l : list A) :
  (forall x, f x == g x) -> Qsum (map f l) == Qsum (map g l).
Proof.
  intros H. induction l as [| x t IH]; simpl; [reflexivity |].
  rewrite IH, (H x). reflexivity.
Qed.

Lemma catalogue_revenue (cat : list Catalog.row)
    (items : list OrderItems.row) :
  NoDup (map (fun c => Products.product_id (Catalog.product c)) cat) ->
  Qsum (map (fun c =>
               Qsum (numbers
                 (map OrderItems.total_price
                    (filter (fun r => (OrderItems.product_id r
                               =? Products.product_id (Catalog.product c))%Z)
                            items))))
            cat)
  == Qsum (numbers (map OrderItems.total_price (catalogued cat items))).
Proof.
  intros Hnd. induction items as [| i t IH].
  - simpl. induction cat as [| c cs IHc]; simpl; [reflexivity |].
    inversion Hnd; subst. rewrite IHc by assumption. ring.
  - set (v := match OrderItems.total_price i with Num x => x | NaN => 0 end).
    rewrite (Qsum_map_ext _
               (fun c =>
                  (if (OrderItems.product_id i
                       =? Products.product_id (Catalog.product c))%Z
                   then v else 0)
                  + Qsum (numbers
                      (map OrderItems.total_price
                         (filter (fun r => (OrderItems.product_id r
                              =? Products.product_id (Catalog.product c))%Z)
                                 t))))).
    + rewrite Qsum_map_plus, IH, (Qsum_indicator cat _ v Hnd).
      unfold catalogued. cbn [filter].
      destruct (existsb _ cat); [| ring].
      cbn [map numbers]. unfold v.
      destruct (OrderItems.total_price i); simpl; ring.
    + intros c. cbn [filter].
      destruct (OrderItems.product_id i
                =? Products.product_id (Catalog.product c))%Z; [| ring].
      cbn [map numbers]. unfold v.
      destruct (OrderItems.total_price i); simpl; ring.
Qed.

Lemma sales_NoDup (items : list OrderItems.row) :
  NoDup (map Sales.product_id (sales items)).
Proof.
  unfold sales. rewrite map_map. simpl. rewrite map_id.
  apply sorted_lt_NoDup, group_keys_sorted.
Qed.

(** X18: when no two rows of the products table share a product_id, the
    Total Revenue printed under the revenue table is the sum of total_price
    over the order items whose product is in the products table; the items
    of unknown products are not counted, and missing prices count for
    nothing. *)
Theorem X18_total_revenue (cat : list Catalog.row)
    (items : list OrderItems.row) :
  NoDup (map (fun c => Products.product_id (Catalog.product c)) cat) ->
  feq (total_revenue (snd (revenue_analysis cat items)))
      (Num (Qsum (numbers (map OrderItems.total_price
                               (catalogued cat items))))).
Proof.
  intros Hnd. unfold revenue_analysis. cbn [snd total_revenue].
  unfold revenue_table.
  set (idc := fun c => Products.product_id (Catalog.product c)).
  set (merged := merge_left idc Sales.product_id cat (sales items)).
  set (rows := map mk_revenue merged).
  set (R := fun c =>
              Qsum (numbers
                (map OrderItems.total_price
                   (filter (fun r => (OrderItems.product_id r =? idc c)%Z)
                           items)))).
  assert (Hperm : Permutation rows
                    (sort_values_desc Revenue.total_revenue rows))
    by apply sort_values_desc_perm.
  assert (Hsum : Qsum (numbers (map Revenue.total_revenue
                         (sort_values_desc Revenue.total_revenue rows)))
                 == Qsum (map R cat)).
  { rewrite <- (Qsum_perm _ _
                  (numbers_perm _ _
                     (Permutation_map Revenue.total_revenue Hperm))).
    unfold rows. rewrite map_map.
    rewrite (Qsum_numbers_map _ (fun x => R (fst x))).
    - rewrite <- (map_map fst R). unfold merged.
      rewrite (merge_left_unique idc Sales.product_id cat (sales items)
                 (sales_NoDup items)).
      reflexivity.
    - intros [c s] Hx. apply merge_left_In in Hx. destruct Hx as [_ Hs].
      cbn [mk_revenue Revenue.total_revenue fst]. unfold R.
      apply sales_revenue. exact Hs. }
  pose proof (group_sum_value
                (map Revenue.total_revenue
                     (sort_values_desc Revenue.total_revenue rows))) as Hg.
  destruct (group_sum _) as [q |]; simpl in *; [| exact Hg].
  rewrite Hg, Hsum. unfold R, idc. apply catalogue_revenue. exact Hnd.
Qed.

Lemma X18_witness :
  feq (total_revenue (snd (revenue_analysis sample_catalog sample_items)))
      (Num 400).
Proof.
  assert (Hnd : NoDup (map (fun c => Products.product_id (Catalog.product c))
                           sample_catalog))
    by (repeat constructor; simpl; intuition discriminate).
  pose proof (X18_total_revenue sample_catalog sample_items Hnd) as H.
  vm_compute in H. vm_compute. exact H.
Defined.

(** X19: for a product with positive revenue the profit margin is a number;
    it is positive only with a gross profit above zero, negative only with a
    gross profit below zero, and at most 100 when the total cost is not
    negative. *)
Theorem X19_margin_of_positive_revenue
    (cat : list Catalog.row) (items : list OrderItems.row)
    (row : Revenue.row) :
  In row (revenue_table cat items) ->
  flt (Num 0) (Revenue.total_revenue row) = true ->
  exists m,
    Revenue.profit_margin_pct row = Fin (Num m)
    /\ (0 < m -> flt (Num 0) (Revenue.gross_profit row) = true)
    /\ (m < 0 -> flt (Revenue.gross_profit row) (Num 0) = true)
    /\ (fle (Num 0) (Revenue.total_cost row) = true -> m <= 100).
Proof.
  intros H Hpos. apply revenue_table_In in H.
  destruct H as (c & s & -> & _ & _).
  cbn [mk_revenue Revenue.total_revenue Revenue.gross_profit
       Revenue.total_cost Revenue.profit_margin_pct] in *.
  destruct (fillna (Num 0) (col Sales.total_revenue s)) as [r |];
    [| discriminate].
  simpl in Hpos. apply Qlt_bool_iff in Hpos.
  pose proof (fillna_number 0 (Catalog.base_cost c)) as Hb.
  pose proof (fillna_number 0 (col Sales.units_sold s)) as Hu.
  destruct (fillna (Num 0) (Catalog.base_cost c)) as [b |]; [| discriminate].
  destruct (fillna (Num 0) (col Sales.units_sold s)) as [u |];
    [| discriminate].
  cbn [fmul fsub]. unfold np_div, is_zero.
  replace (Qeq_zero r) with false by (symmetry; apply Qeq_zero_false; lra).
  cbn [fdiv_nz times100 qround2 fmul round2 fround_to flt fle].
  eexists. split; [reflexivity |].
  destruct (div100_sign (r - b * u) r Hpos) as [Hneg Hposi].
  split; [| split].
  - intros Hm. apply Qround_to_pos in Hm. b2p. auto.
  - intros Hm. apply Qround_to_neg in Hm. b2p. auto.
  - intros Hc. b2p.
    assert (E : Qround_to 100 100 == 100) by reflexivity.
    apply (Qle_trans _ (Qround_to 100 100)); [| rewrite E; lra].
    apply Qround_to_le.
    apply (Qle_trans _ ((1 - 0) * 100)); [| lra].
    pose proof (Qinv_lt_0_compat _ Hpos) as Hi. unfold Qdiv.
    assert ((r - b * u) * / r <= r * / r) by nra.
    assert (r * / r == 1) by (field; lra). lra.
Qed.

Lemma X19_witness :
  exists m,
    Revenue.profit_margin_pct
      (nth 0 (revenue_table sample_catalog sample_items)
           (mk_revenue (nth 0 sample_catalog
                            {| Catalog.product := product 0 "" NaN NaN NaN;
                               Catalog.base_price := NaN;
                               Catalog.base_cost := NaN |}, None)))
    = Fin (Num m)
    /\ m <= 100.
Proof.
  destruct (X19_margin_of_positive_revenue sample_catalog sample_items
              (nth 0 (revenue_table sample_catalog sample_items)
                 (mk_revenue (nth 0 sample_catalog
                            {| Catalog.product := product 0 "" NaN NaN NaN;
                               Catalog.base_price := NaN;
                               Catalog.base_cost := NaN |}, None)))
              ltac:(left; reflexivity) eq_refl)
    as (m & Hm & _ & _ & Hle).
  exists m. split; [exact Hm |]. apply Hle. reflexivity.
Defined.

(** ** Product pricing overview *)

Lemma merge_left_cons {L R : Type} (lkey : L -> Z) (rkey : R -> Z)
    (x : L) (l : list L) (r : list R) :
  merge_left lkey rkey (x :: l) r
  = match filter (fun y => (rkey y =? lkey x)%Z) r with
    | [] => [(x, None)]
    | ms => map (fun y => (x, Some y)) ms
    end ++ merge_left lkey rkey l r.
Proof. reflexivity. Qed.

Lemma merge_left_map {A L R : Type} (f : A -> L) (lkey : L -> Z)
    (rkey : R -> Z) (l : list A) (r : list R) :
  merge_left lkey rkey (map f l) r
  = map (fun x => (f (fst x), snd x))
        (merge_left (fun a => lkey (f a)) rkey l r).
Proof.
  induction l as [| a t IH]; [reflexivity |].
  change (map f (a :: t)) with (f a :: map f t).
  rewrite !merge_left_cons, map_app, IH. f_equal.
  destruct (filter (fun y => (rkey y =? lkey (f a))%Z) r) as [| y ys];
    [reflexivity |].
  rewrite map_map. reflexivity.
Qed.

(** X20: the overview and the recommendations are built on the same join:
    row by row, the overview shows the product, the current price, the
    quantity, the stock status, the demand score and the conversion rate
    that the rule chain of [pricing_recommendations] reads. *)
Theorem X20_overview_matches_reco (cat : list Catalog.row) (d : data) :
  products d = map Catalog.product cat ->
  map overview_cells
      (product_pricing_overview cat (inventory d) (demand_metrics d))
  = map reco_cells (reco d).
Proof.
  intros Hp. unfold reco, product_pricing_overview. rewrite Hp.
  change (latest_of (demand_metrics d)) with (latest_demand d).
  rewrite (merge_left_map Catalog.product Products.product_id
             Inventory.product_id cat (inventory d)).
  set (m1 := merge_left (fun a => Products.product_id (Catalog.product a))
                        Inventory.product_id cat (inventory d)).
  rewrite (merge_left_map (fun x => (Catalog.product (fst x), snd x))
             (fun x => Products.product_id (fst x))
             Demand.product_id m1 (latest_demand d)).
  cbn [fst].
  set (m2 := merge_left
               (fun a => Products.product_id (Catalog.product (fst a)))
               Demand.product_id m1 (latest_demand d)).
  set (m2' := map (fun x => ((Catalog.product (fst (fst x)), snd (fst x)),
                             snd x)) m2).
  set (m3 := merge_left (fun x => Products.product_id (fst (fst x)))
                        fst m2' (avg_comp d)).
  assert (E : map fst m3 = m2')
    by (apply merge_left_unique, avg_comp_NoDup).
  rewrite !map_map.
  transitivity (map (fun x => reco_cells (mk_reco (x, None))) m2').
  - unfold m2'. rewrite map_map. apply map_ext.
    intros [[c i] dm]. reflexivity.
  - rewrite <- E, map_map. apply map_ext.
    intros [[[p i] dm] c]. reflexivity.
Qed.

Lemma X20_witness :
  map overview_cells
      (product_pricing_overview
         [ {| Catalog.product := product 1 "widget" (Num 100) (Num 50)
                                         (Num 120);
              Catalog.base_price := Num 90; Catalog.base_cost := Num 60 |} ]
         (inventory shop_no_inventory) (demand_metrics shop_no_inventory))
  = map reco_cells (reco shop_no_inventory).
Proof.
  apply X20_overview_matches_reco. reflexivity.
Defined.

(** ** The run of all reports *)

Ltac run_main :=
  cbv [main nothing_loaded run_reports analyses overview_report
       comparison_report high_demand_report revenue_report alerts_report
       pricing_report get get_present and_then ld_products ld_inventory
       ld_demand_metrics ld_competitor_prices ld_order_items ld_competitors
       ld_others negb andb app].

(** X21: the run of [main] goes through all six reports exactly when the
    products, inventory, demand_metrics, competitor_prices and order_items
    tables are loaded, the competitors table is loaded as well, although no
    report uses its content, and [pricing_recommendations] does not fail on
    a zero current_price.  The six other tables are never needed. *)
Theorem X21_main_completes (l : loaded) :
  (exists reports, main l = Completed reports) <->
  exists cat inv dm cp items,
    ld_products l = Some cat
    /\ ld_inventory l = Some inv
    /\ ld_demand_metrics l = Some dm
    /\ ld_competitor_prices l = Some cp
    /\ ld_order_items l = Some items
    /\ ld_competitors l = true
    /\ exists t, pricing_recommendations (as_data cat inv dm cp) = Ok t.
Proof.
  destruct l as [[cat |] [inv |] [dm |] [cp |] [items |] [|] others];
    run_main;
    try (split;
         [ intros [reports H]; try destruct others; discriminate
         | intros (? & ? & ? & ? & ? & H1 & H2 & H3 & H4 & H5 & H6 & _);
           discriminate ]).
  destruct (pricing_recommendations (as_data cat inv dm cp)) as [t | e] eqn:E.
  - split; [intros _ | intros _; eexists; reflexivity].
    exists cat, inv, dm, cp, items. repeat split. exists t. exact E.
  - split; [intros [reports H]; discriminate |].
    intros (? & ? & ? & ? & ? & H1 & H2 & H3 & H4 & _ & _ & t & Ht).
    inversion H1; inversion H2; inversion H3; inversion H4; subst.
    congruence.
Qed.

(** X22: when the run of [main] stops on a missing table, that table is
    indeed not loaded, and it decides how many reports were printed before:
    none when products, inventory or demand_metrics is missing, only the
    overview when competitor_prices or competitors is missing, and the first
    three reports when order_items is missing; the reports after the
    failing one, pricing recommendations included, are never produced. *)
Theorem X22_missing_table_stops_run
    (l : loaded) (reports : list printed) (t : Table.t) :
  main l = Aborted reports (KeyError t) ->
  missing l t
  /\ List.length reports
     = match t with
       | Table.competitor_prices | Table.competitors => 1%nat
       | Table.order_items => 3%nat
       | _ => 0%nat
       end.
Proof.
  destruct l as [[cat |] [inv |] [dm |] [cp |] [items |] [|] [|]];
    run_main; unfold missing; cbn [ld_products ld_inventory
      ld_demand_metrics ld_competitor_prices ld_order_items ld_competitors];
    try discriminate;
    try (intros H; inversion H; subst; split; reflexivity);
    destruct (pricing_recommendations (as_data cat inv dm cp));
    discriminate.
Qed.

Lemma X22_witness :
  missing load_without_competitors Table.competitors
  /\ exists t, main load_without_competitors
               = Aborted [POverview t] (KeyError Table.competitors).
Proof.
  assert (E : main load_without_competitors
              = Aborted [POverview (product_pricing_overview sample_catalog
                                      (inventory shop_week)
                                      (demand_metrics shop_week))]
                        (KeyError Table.competitors)) by reflexivity.
  split; [| eexists; exact E].
  exact (proj1 (X22_missing_table_stops_run _ _ _ E)).
Defined.

(** X23: when all the tables the reports read are loaded and some row of
    the merged frame takes a rule while its current_price is zero, the run
    still prints the five reports before the pricing recommendations, then
    aborts with ZeroDivisionError: no recommendation is shown, not even for
    the other products. *)
Theorem X23_zero_price_loses_recommendations
    (l : loaded) (cat : list Catalog.row) (inv : list Inventory.row)
    (dm : list Demand.row) (cp : list CompetitorPrices.row)
    (items : list OrderItems.row) (row : Reco.row) :
  ld_products l = Some cat ->
  ld_inventory l = Some inv ->
  ld_demand_metrics l = Some dm ->
  ld_competitor_prices l = Some cp ->
  ld_order_items l = Some items ->
  ld_competitors l = true ->
  In row (reco (as_data cat inv dm cp)) ->
  fires row = true ->
  is_zero (Reco.current_price row) = true ->
  main l
  = Aborted
      [POverview (product_pricing_overview cat inv dm);
       PComparison (competitor_comparison (as_data cat [] [] cp));
       PHighDemand (high_demand_products (as_data cat inv dm []));
       PRevenue (revenue_analysis cat items);
       PAlerts (inventory_alerts (as_data cat inv dm []))]
      (Raised ZeroDivisionError).
Proof.
  destruct l as [c i d p o k others]. simpl.
  intros -> -> -> -> -> -> Hin Hf Hz. run_main.
  assert (E : iterrows (reco (as_data cat inv dm cp)) []
              = Err ZeroDivisionError)
    by (apply iterrows_Err; exists row; auto).
  unfold pricing_recommendations. rewrite E. reflexivity.
Qed.

Lemma X23_witness :
  exists reports,
    main load_zero_price = Aborted reports (Raised ZeroDivisionError)
    /\ List.length reports = 5%nat.
Proof.
  eexists. split.
  - apply (X23_zero_price_loses_recommendations load_zero_price
             _ _ _ _ _
             (nth 0 (reco (as_data
                       [ {| Catalog.product :=
                              product 1 "widget" (Num 0) (Num 0) (Num 120);
                            Catalog.base_price := Num 90;
                            Catalog.base_cost := Num 60 |} ]
                       (inventory shop_sorting)
                       (demand_metrics shop_sorting) []))
                  row_high_demand)
             eq_refl eq_refl eq_refl eq_refl eq_refl eq_refl).
    + left. reflexivity.
    + reflexivity.
    + reflexivity.
  - reflexivity.
Defined.

(** ** Division by zero in the overview *)

Lemma overview_In (cat : list Catalog.row) (inv : list Inventory.row)
    (dm : list Demand.row) (row : Overview.row) :
  In row (product_pricing_overview cat inv dm) <->
  exists c i s,
    row = mk_overview (c, i, s)
    /\ In c cat
    /\ matched (fun c => Products.product_id (Catalog.product c))
               Inventory.product_id inv c i
    /\ matched (fun c => Products.product_id (Catalog.product c))
               Demand.product_id (latest_of dm) c s.
Proof.
  unfold product_pricing_overview. rewrite in_map_iff. split.
  - intros ([[c i] s] & E & H).
    apply merge_left_In in H. destruct H as [H Hs].
    apply merge_left_In in H. destruct H as [Hc Hi].
    exists c, i, s. auto.
  - intros (c & i & s & E & Hc & Hi & Hs).
    exists (c, i, s). split; [auto |].
    apply merge_left_In. split; [| exact Hs].
    apply merge_left_In. split; assumption.
Qed.

(** X24: in the overview a product whose base_price is zero gets an
    infinite price_change_pct, positive or negative with the sign of its
    current price, and NaN when the current price is zero or missing: the
    division by zero raises nothing and no sentinel replaces its result. *)
Theorem X24_overview_zero_base_price
    (cat : list Catalog.row) (inv : list Inventory.row)
    (dm : list Demand.row) (row : Overview.row) :
  In row (product_pricing_overview cat inv dm) ->
  exists c,
    In c cat
    /\ Overview.product_id row = Products.product_id (Catalog.product c)
    /\ (is_zero (Catalog.base_price c) = true ->
        Overview.price_change_pct row
        = match Overview.current_price row with
          | Num x => if Qeq_zero x then Fin NaN
                     else if Qlt_bool 0 x then PInf else NInf
          | NaN => Fin NaN
          end).
Proof.
  intros H. apply overview_In in H.
  destruct H as (c & i & s & -> & Hc & _ & _).
  exists c. split; [exact Hc |]. split; [reflexivity |].
  cbn [mk_overview Overview.price_change_pct Overview.current_price].
  intros Hz. unfold np_div. rewrite Hz.
  destruct (Catalog.base_price c) as [b |]; [| discriminate].
  simpl in Hz. apply Qeq_zero_true in Hz.
  destruct (Products.current_price (Catalog.product c)) as [x |];
    [| reflexivity].
  cbn [fsub].
  assert (E0 : Qeq_zero (x - b) = Qeq_zero x).
  { destruct (Qeq_zero x) eqn:E.
    - apply Qeq_zero_true. apply Qeq_zero_true in E. lra.
    - apply Qeq_zero_false. apply Qeq_zero_false in E. lra. }
  assert (E1 : Qlt_bool 0 (x - b) = Qlt_bool 0 x).
  { destruct (Qlt_bool 0 x) eqn:E.
    - apply Qlt_bool_iff. apply Qlt_bool_iff in E. lra.
    - apply Qlt_bool_false. apply Qlt_bool_false in E. lra. }
  rewrite E0, E1.
  destruct (Qeq_zero x); [reflexivity |].
  destruct (Qlt_bool 0 x); reflexivity.
Qed.

Lemma X24_witness :
  exists row,
    In row (product_pricing_overview sample_catalog [] [])
    /\ Overview.product_name row = "gizmo"%string
    /\ Overview.price_change_pct row = PInf.
Proof.
  exists (nth 2 (product_pricing_overview sample_catalog [] [])
              (mk_overview (nth 0 sample_catalog
                              {| Catalog.product := product 0 "" NaN NaN NaN;
                                 Catalog.base_price := NaN;
                                 Catalog.base_cost := NaN |}, None, None))).
  split; [right; right; left; reflexivity |]. split; [reflexivity |].
  destruct (X24_overview_zero_base_price sample_catalog [] [] _
              ltac:(right; right; left; reflexivity)) as (c & _ & _ & _).
  reflexivity.
Defined.
